(** * SerWB framing layer of LiteICLink: packetizer, depacketizer, link core

    Shallow embedding of [liteiclink/serwb/packet.py] and
    [liteiclink/serwb/core.py].  The Python source builds synchronous
    circuits with Migen; every module is embedded as the function its
    circuit computes on one clock tick: from the registers and the
    present inputs to the next registers and the combinational outputs. *)

From Stdlib Require Import ZArith List Bool String Lia DecimalString.
Import ListNotations.
Open Scope Z_scope.

(** ** Signals

    A [w]-bit signal is a [Z] in [0, 2^w).  Expressions are evaluated on
    integers and a value is cut to the width of the signal (or slice) it
    is assigned to.  A combinational signal that no statement assigns on
    a tick holds its reset value, 0; of several assignments to the same
    bits, the last one wins. *)

Module Fhdl.

(** Python's [slice.indices(n)] for non-negative bounds: a bound past the
    end of an [n]-bit signal is brought back to [n]. *)
Definition clamp (n i : Z) : Z := Z.max 0 (Z.min i n).

(** [sig.eq(v)] on a [w]-bit signal. *)
Definition trunc (w v : Z) : Z := Z.land v (Z.ones w).

(** Reading [sig[lo:hi]] of an [n]-bit signal holding [v]. *)
Definition slice (n v lo hi : Z) : Z :=
  let lo' := clamp n lo in
  let hi' := clamp n hi in
  if hi' <=? lo' then 0
  else Z.land (Z.shiftr v lo') (Z.ones (hi' - lo')).

(** [sig[lo:hi].eq(v)] on an [n]-bit signal holding [cur]: the bits of the
    slice are replaced, the others kept. *)
Definition set_slice (n cur lo hi v : Z) : Z :=
  let lo' := clamp n lo in
  let hi' := clamp n hi in
  if hi' <=? lo' then cur
  else Z.lor (Z.ldiff cur (Z.shiftl (Z.ones (hi' - lo')) lo'))
             (Z.shiftl (Z.land v (Z.ones (hi' - lo'))) lo').

End Fhdl.

(** ** Layouts *)

(** A payload layout is the ordered list of (field name, bit width). *)
Definition layout : Type := list (string * Z).

(** [packet_description(dw)]: one payload field [data] of [dw] bits.  The
    parameter layout, [port] on 8 bits and [length] on 16, is the same
    for every description and is carried by the record fields below. *)
Definition packet_description (dw : Z) : layout := [("data"%string, dw)].

(** [packet_description_(payload_layout)]: the caller's payload layout. *)
Definition packet_description_ (payload_layout : layout) : layout :=
  payload_layout.

(** [dw = sum([c[1] for c in payload_layout])]: width of the link word. *)
Definition payload_width (l : layout) : Z :=
  fold_right Z.add 0 (map snd l).

(** Signals a stream endpoint carries from its producer to its consumer:
    the handshake's [valid], the [last] marker, the parameters [port] and
    [length], and one value per payload field, in layout order.  [ready]
    travels the other way and is passed on its own. *)
Record stream : Type := {
  valid   : bool;
  last    : bool;
  port    : Z;
  length  : Z;
  payload : list Z
}.

Definition preamble : Z := 0x5aa55aa5.

Inductive fsm_state : Type := PREAMBLE | PORT_LENGTH | DATA.

Definition fsm_state_eqb (a b : fsm_state) : bool :=
  match a, b with
  | PREAMBLE, PREAMBLE | PORT_LENGTH, PORT_LENGTH | DATA, DATA => true
  | _, _ => false
  end.

(** ** Packetizer *)

Module Packetizer.

(** Combinational outputs of the packetizer. *)
Record outputs : Type := {
  source_valid : bool;
  source_data  : Z;
  sink_ready   : bool
}.

(** The loop that builds [data_write]: for every field [c] of the payload
    layout, [source.data[i:i+c_width].eq(c_sig)].  The loop never changes
    [i], which is 0, so every field is written from bit 0 and a later
    field overwrites the low bits of an earlier one. *)
Definition data_write (l : layout) (fields : list Z) (data : Z) : Z :=
  let dw := payload_width l in
  let i := 0 in
  fold_left
    (fun d cf => Fhdl.set_slice dw d i (i + snd (fst cf)) (snd cf))
    (combine l fields) data.

(** The header word of [PORT-LENGTH]:
    [source.data[0:8].eq(sink.port)], [source.data[8:24].eq(sink.length)];
    the bits no statement assigns are 0. *)
Definition header (dw p n : Z) : Z :=
  Fhdl.set_slice dw (Fhdl.set_slice dw 0 0 8 p) 8 24 n.

(** The outputs on one tick. *)
Definition comb (l : layout) (st : fsm_state) (sink : stream)
    (source_ready : bool) : outputs :=
  let dw := payload_width l in
  match st with
  | PREAMBLE =>
      if valid sink then
        {| source_valid := true;
           source_data  := Fhdl.trunc dw preamble;
           sink_ready   := false |}
      else
        {| source_valid := false; source_data := 0; sink_ready := false |}
  | PORT_LENGTH =>
      {| source_valid := true;
         source_data  := header dw (port sink) (length sink);
         sink_ready   := false |}
  | DATA =>
      {| source_valid := valid sink;
         source_data  := data_write l (payload sink) 0;
         sink_ready   := source_ready |}
  end.

(** The state after the tick. *)
Definition next (st : fsm_state) (sink : stream) (source_ready : bool)
    : fsm_state :=
  match st with
  | PREAMBLE =>
      if valid sink then (if source_ready then PORT_LENGTH else PREAMBLE)
      else PREAMBLE
  | PORT_LENGTH => if source_ready then DATA else PORT_LENGTH
  | DATA => if source_ready && last sink then PREAMBLE else DATA
  end.

Definition reset_state : fsm_state := PREAMBLE.

Definition tick (l : layout) (st : fsm_state)
    (i : stream * bool) : fsm_state * outputs :=
  (next st (fst i) (snd i), comb l st (fst i) (snd i)).

End Packetizer.

(** ** A producer offering one packet, and the wire *)

(** A packet as a producer holds it. *)
Record packet : Type := {
  p_port    : Z;
  p_length  : Z;
  p_payload : list Z
}.

(** The endpoint signals of a producer that still has the words [rest] of
    packet [P] to send on a single-field layout: it offers the first of
    them, marks the final one with [last], and is idle after it. *)
Definition offer (P : packet) (rest : list Z) : stream :=
  match rest with
  | [] => {| valid := false; last := false;
             port := p_port P; length := p_length P; payload := [0] |}
  | w :: r => {| valid := true;
                 last := match r with [] => true | _ => false end;
                 port := p_port P; length := p_length P; payload := [w] |}
  end.

(** The producer moves to its next word when the offered one is taken. *)
Definition advance (rest : list Z) (taken : bool) : list Z :=
  if taken then tl rest else rest.

(** The words the packetizer puts on the wire while a producer offers [P]:
    one tick per entry of [readies], the consumer's [ready] on that tick;
    a word is on the wire when [valid] and [ready] meet. *)
Fixpoint wire (l : layout) (P : packet) (st : fsm_state) (rest : list Z)
    (readies : list bool) : list Z :=
  match readies with
  | [] => []
  | rdy :: readies' =>
      let sink := offer P rest in
      let o := Packetizer.comb l st sink rdy in
      let taken := valid sink && Packetizer.sink_ready o in
      let tail := wire l P (Packetizer.next st sink rdy)
                       (advance rest taken) readies' in
      if Packetizer.source_valid o && rdy
      then Packetizer.source_data o :: tail
      else tail
  end.

Definition frame_of (l : layout) (P : packet) (ticks : nat) : list Z :=
  wire l P Packetizer.reset_state (p_payload P) (repeat true ticks).

(** ** Depacketizer *)

Module Depacketizer.

(** The registers: the state of the FSM and the three signals [port],
    [count] and [length] (8, 16 and 16 bits), all 0 at reset. *)
Record regs : Type := {
  state    : fsm_state;
  r_port   : Z;
  r_count  : Z;
  r_length : Z
}.

Definition reset_regs : regs :=
  {| state := PREAMBLE; r_port := 0; r_count := 0; r_length := 0 |}.

(** Combinational outputs.  [sink_data] is the value of the input signal
    [sink.data] once the statements of the FSM have run: [data_write]
    assigns to it in [DATA]. *)
Record outputs : Type := {
  source     : stream;
  sink_ready : bool;
  timer_wait : bool;
  sink_data  : Z
}.

(** No statement of the depacketizer assigns a payload field of [source]:
    each one holds its reset value. *)
Definition source_payload (l : layout) : list Z := map (fun _ => 0) l.

(** The loop that builds [data_write]: for every field [c] of the payload
    layout, [sink.data[i:i+c_width].eq(c_sig)] with [c_sig] the field of
    [source]; [i] stays 0 here too. *)
Definition data_write (l : layout) (fields : list Z) (data : Z) : Z :=
  let dw := payload_width l in
  let i := 0 in
  fold_left
    (fun d cf => Fhdl.set_slice dw d i (i + snd (fst cf)) (snd cf))
    (combine l fields) data.

(** [source.last.eq(count == (length[2:] - 1))] *)
Definition source_last (r : regs) : bool :=
  r_count r =? Fhdl.slice 16 (r_length r) 2 16 - 1.

Definition idle_source (l : layout) : stream :=
  {| valid := false; last := false; port := 0; length := 0;
     payload := source_payload l |}.

Definition comb (l : layout) (r : regs) (sink_valid : bool) (data : Z)
    (source_ready : bool) : outputs :=
  match state r with
  | PREAMBLE =>
      {| source := idle_source l; sink_ready := true;
         timer_wait := false; sink_data := data |}
  | PORT_LENGTH =>
      {| source := idle_source l; sink_ready := true;
         timer_wait := true; sink_data := data |}
  | DATA =>
      {| source := {| valid   := sink_valid;
                      last    := source_last r;
                      port    := r_port r;
                      length  := r_length r;
                      payload := source_payload l |};
         sink_ready := source_ready;
         timer_wait := true;
         sink_data  := data_write l (source_payload l) data |}
  end.

(** The registers after the tick.  [timer_done] is the [done] output of
    the wait timer, which counts while [timer_wait] is held. *)
Definition next (l : layout) (r : regs) (sink_valid : bool) (data : Z)
    (source_ready timer_done : bool) : regs :=
  let dw := payload_width l in
  match state r with
  | PREAMBLE =>
      if sink_valid && (data =? preamble)
      then {| state := PORT_LENGTH; r_port := r_port r;
              r_count := r_count r; r_length := r_length r |}
      else r
  | PORT_LENGTH =>
      if sink_valid
      then {| state    := DATA;
              r_port   := Fhdl.trunc 8 (Fhdl.slice dw data 0 8);
              r_count  := Fhdl.trunc 16 0;
              r_length := Fhdl.trunc 16 (Fhdl.slice dw data 8 24) |}
      else r
  | DATA =>
      let o := comb l r sink_valid data source_ready in
      if timer_done
      then {| state := PREAMBLE; r_port := r_port r;
              r_count := r_count r; r_length := r_length r |}
      else if valid (source o) && source_ready
      then {| state    := if last (source o) then PREAMBLE else DATA;
              r_port   := r_port r;
              r_count  := Fhdl.trunc 16 (r_count r + 1);
              r_length := r_length r |}
      else r
  end.

Definition tick (l : layout) (r : regs)
    (i : bool * Z * bool * bool) : regs * outputs :=
  let '(sink_valid, data, source_ready, timer_done) := i in
  (next l r sink_valid data source_ready timer_done,
   comb l r sink_valid data source_ready).

End Depacketizer.

(** ** Packetizer feeding depacketizer *)

(** The link with its buffers taken as the identity: the packetizer's
    [source] drives the depacketizer's [sink], and the depacketizer's
    [sink.ready] is the packetizer's [source.ready].  The timer never
    expires.  One tick per entry of [readies], the [ready] of the
    depacketizer's consumer; the result lists the flits the consumer
    takes. *)
Fixpoint loopback (l : layout) (P : packet) (pk : fsm_state)
    (dp : Depacketizer.regs) (rest : list Z) (readies : list bool)
    : list stream :=
  match readies with
  | [] => []
  | rdy :: readies' =>
      let sink := offer P rest in
      let dp_ready :=
        Depacketizer.sink_ready (Depacketizer.comb l dp false 0 rdy) in
      let po := Packetizer.comb l pk sink dp_ready in
      let v := Packetizer.source_valid po in
      let d := Packetizer.source_data po in
      let do := Depacketizer.comb l dp v d rdy in
      let tail :=
        loopback l P (Packetizer.next pk sink dp_ready)
                 (Depacketizer.next l dp v d rdy false)
                 (advance rest (valid sink && Packetizer.sink_ready po))
                 readies' in
      if valid (Depacketizer.source do) && rdy
      then Depacketizer.source do :: tail
      else tail
  end.

(** The packets a consumer reads off a list of flits: payload words up to
    and including the flit marked [last], with the parameters of that
    flit. *)
Fixpoint packets_of (acc : list Z) (flits : list stream) : list packet :=
  match flits with
  | [] => []
  | f :: fs =>
      let acc' := acc ++ [hd 0 (payload f)] in
      if last f
      then {| p_port := port f; p_length := length f; p_payload := acc' |}
           :: packets_of [] fs
      else packets_of acc' fs
  end.

Definition roundtrip (l : layout) (P : packet) (readies : list bool)
    : list packet :=
  packets_of [] (loopback l P Packetizer.reset_state
                          Depacketizer.reset_regs (p_payload P) readies).

(** ** Elastic buffer *)

Module SyncFIFO.

(** Modelled from the spec: the elastic buffer, [stream.SyncFIFO] of LiteX,
    which [core.py] only instantiates.  The spec gives it as a bounded
    queue of words between one producer and one consumer, coordinated by
    [valid]/[ready], with a reset-to-empty operation. *)
Definition fifo : Type := list Z.

Definition reset_fifo : fifo := [].

Definition sink_ready (depth : Z) (q : fifo) : bool :=
  Z.of_nat (List.length q) <? depth.

Definition source_valid (q : fifo) : bool :=
  match q with [] => false | _ => true end.

Definition source_data (q : fifo) : Z := hd 0 q.

Definition next (depth : Z) (q : fifo) (sink_valid : bool) (data : Z)
    (source_ready : bool) : fifo :=
  let q' := if source_valid q && source_ready then tl q else q in
  if sink_valid && sink_ready depth q then q' ++ [data] else q'.

End SyncFIFO.

(** ** Arbiter *)

Module Arbiter.

(** Modelled from the spec: the Arbiter, [litex.soc.interconnect.packet.Arbiter],
    which [core.py] only instantiates.  The spec gives its contract: it
    merges the producers' endpoints into the one endpoint the packetizer
    consumes; once the first word of a producer has been accepted it
    keeps granting that producer until the producer's end-of-message
    word is accepted; which producer it picks while no frame is under
    way is left open, so the pick is an input of the model. *)
Definition state : Type := option nat.

Definition reset_state : state := None.

Definition grant (s : state) (pick : nat) : nat :=
  match s with Some g => g | None => pick end.

Definition idle : stream :=
  {| valid := false; last := false; port := 0; length := 0; payload := [0] |}.

(** The endpoint presented to the slave: the granted master's. *)
Definition slave (masters : list stream) (g : nat) : stream :=
  nth g masters idle.

Definition next (s : state) (g : nat) (m : stream) (slave_ready : bool)
    : state :=
  if valid m && slave_ready
  then (if last m then None else Some g)
  else s.

End Arbiter.

(** ** SERWB core *)

Module SERWBCore.

Inductive exn : Type := ValueError (msg : string).

(** [str(port)] of the f-strings. *)
Definition str (port : Z) : string := NilZero.string_of_int (Z.to_int port).

Section Core.

(** The endpoints higher layers attach. *)
Variable endpoint : Type.

(** The two registration dictionaries.  A Python dict keeps its keys in
    insertion order and the methods below never overwrite a key, so a
    dictionary is the list of its items in the order they were added. *)
Record core : Type := {
  downstream_endpoints : list (Z * endpoint);
  upstream_endpoints   : list (Z * endpoint)
}.

(** A method of the core either returns or raises, and leaves the core in
    some state either way. *)
Definition method (A : Type) : Type := core -> (exn + A) * core.

Definition ret {A : Type} (a : A) : method A := fun self => (inr a, self).

Definition raise {A : Type} (e : exn) : method A := fun self => (inl e, self).

Definition bind {A B : Type} (m : method A) (k : A -> method B) : method B :=
  fun self =>
    match m self with
    | (inl e, self') => (inl e, self')
    | (inr a, self') => k a self'
    end.

(** [port in d.keys()] *)
Definition contains (port : Z) (d : list (Z * endpoint)) : bool :=
  existsb (Z.eqb port) (map fst d).

Definition add_downstream_endpoint (port : Z) (ep : endpoint)
    : method unit :=
  fun self =>
    if contains port (downstream_endpoints self)
    then raise (ValueError ("Downstream endpoint for port " ++ str port
                            ++ " already exists.")) self
    else (inr tt,
          {| downstream_endpoints := downstream_endpoints self ++ [(port, ep)];
             upstream_endpoints   := upstream_endpoints self |}).

Definition add_upstream_endpoint (port : Z) (ep : endpoint)
    : method unit :=
  fun self =>
    if contains port (upstream_endpoints self)
    then raise (ValueError ("Upstream endpoint for port " ++ str port
                            ++ " already exists.")) self
    else (inr tt,
          {| downstream_endpoints := downstream_endpoints self;
             upstream_endpoints   := upstream_endpoints self ++ [(port, ep)] |}).

(** The part of [__init__] that fills the dictionaries: both start empty
    and the Etherbone channel is attached in each direction. *)
Definition init (port : Z) (etherbone_source etherbone_sink : endpoint)
    : (exn + unit) * core :=
  bind (add_downstream_endpoint port etherbone_source)
       (fun _ => add_upstream_endpoint port etherbone_sink)
       {| downstream_endpoints := []; upstream_endpoints := [] |}.

(** *** [do_finalize] *)

(** The core's packetizer and depacketizer are built with the default
    description. *)
Definition core_layout : layout := packet_description 32.

(** The intermediate endpoint of a downstream item [(k, v)]:
    [v.connect(..., keep={valid, ready, last, data, length})] copies
    those signals of [v], and [port.eq(k)] sets the 8-bit port. *)
Definition downstream_endpoint (k : Z) (v : stream) : stream :=
  {| valid   := valid v;
     last    := last v;
     port    := Fhdl.trunc 8 k;
     length  := length v;
     payload := payload v |}.

(** The [masters] given to the Arbiter, in the order of the dictionary;
    [signals] gives the signals each attached endpoint drives on the
    tick. *)
Definition masters (signals : endpoint -> stream)
    (d : list (Z * endpoint)) : list stream :=
  map (fun kv => downstream_endpoint (fst kv) (signals (snd kv))) d.

(** The [slaves] given to the Dispatcher, in the order of the dictionary. *)
Definition slaves (d : list (Z * endpoint)) : list endpoint := map snd d.

(** [for i, (k, v) in enumerate(...): If(port == k, sel.eq(i))] on the
    signal [sel], whose reset value is 0. *)
Fixpoint sel_from (i : nat) (d : list (Z * endpoint)) (port : Z)
    (sel : nat) : nat :=
  match d with
  | [] => sel
  | (k, _) :: d' => sel_from (S i) d' port (if port =? k then i else sel)
  end.

Definition dispatcher_sel (d : list (Z * endpoint)) (port : Z) : nat :=
  sel_from 0 d port 0.

End Core.

Arguments downstream_endpoints {endpoint} _.
Arguments upstream_endpoints {endpoint} _.
Arguments add_downstream_endpoint {endpoint} _ _ _.
Arguments add_upstream_endpoint {endpoint} _ _ _.
Arguments init {endpoint} _ _ _.
Arguments masters {endpoint} _ _.
Arguments slaves {endpoint} _.
Arguments dispatcher_sel {endpoint} _ _.
Arguments contains {endpoint} _ _.

End SERWBCore.

(** ** Data path and link-down reset of the core *)

Module Link.

(** [ResetInserter()(m)]: while [reset] is high the registers of [m] take
    their reset values on the clock edge instead of the values the
    statements of [m] give them. *)
Definition ResetInserter {S : Type} (reset_value : S) (reset : bool)
    (next : S) : S :=
  if reset then reset_value else next.

(** The five [reset] signals the core owns. *)
Record resets : Type := {
  etherbone_reset    : bool;
  packetizer_reset   : bool;
  depacketizer_reset : bool;
  tx_fifo_reset      : bool;
  rx_fifo_reset      : bool
}.

(** [if with_rst_on_link_down: self.comb += [x.reset.eq(~phy.init.ready), ...]];
    without the option no statement drives the signals. *)
Definition link_down_resets (with_rst_on_link_down phy_init_ready : bool)
    : resets :=
  if with_rst_on_link_down then
    {| etherbone_reset    := negb phy_init_ready;
       packetizer_reset   := negb phy_init_ready;
       depacketizer_reset := negb phy_init_ready;
       tx_fifo_reset      := negb phy_init_ready;
       rx_fifo_reset      := negb phy_init_ready |}
  else
    {| etherbone_reset := false; packetizer_reset := false;
       depacketizer_reset := false; tx_fifo_reset := false;
       rx_fifo_reset := false |}.

Section Modules.

(** The Etherbone channel is a collaborator: its registers, their reset
    value and its clocked behaviour are parameters. *)
Variable EB EB_inputs : Type.
Variable etherbone_reset_value : EB.
Variable etherbone_next : EB -> EB_inputs -> EB.

Variable tx_buffer_depth rx_buffer_depth : Z.

(** The registers of the stateful modules of the core. *)
Record modules : Type := {
  etherbone    : EB;
  packetizer   : fsm_state;
  depacketizer : Depacketizer.regs;
  tx_fifo      : SyncFIFO.fifo;
  rx_fifo      : SyncFIFO.fifo
}.

Definition reset_modules : modules :=
  {| etherbone    := etherbone_reset_value;
     packetizer   := Packetizer.reset_state;
     depacketizer := Depacketizer.reset_regs;
     tx_fifo      := SyncFIFO.reset_fifo;
     rx_fifo      := SyncFIFO.reset_fifo |}.

(** What the rest of the design drives on a tick: the Arbiter on the
    packetizer's sink, the Dispatcher on the depacketizer's source, the
    PHY on both buffers, the timer, and the Etherbone's own inputs. *)
Record pins : Type := {
  packetizer_sink     : stream;
  depacketizer_ready  : bool;
  phy_init_ready      : bool;
  phy_sink_ready      : bool;
  phy_source_valid    : bool;
  phy_source_data     : Z;
  timer_done          : bool;
  etherbone_inputs    : EB_inputs
}.

(** One clock tick of the core:
    [packetizer.source -> tx_fifo -> phy.sink] and
    [phy.source -> rx_fifo -> depacketizer.sink], every module behind its
    [ResetInserter]. *)
Definition tick (with_rst_on_link_down : bool) (m : modules) (p : pins)
    : modules :=
  let l := SERWBCore.core_layout in
  let r := link_down_resets with_rst_on_link_down (phy_init_ready p) in
  let tx_ready := SyncFIFO.sink_ready tx_buffer_depth (tx_fifo m) in
  let po := Packetizer.comb l (packetizer m) (packetizer_sink p) tx_ready in
  let rx_valid := SyncFIFO.source_valid (rx_fifo m) in
  let rx_data := SyncFIFO.source_data (rx_fifo m) in
  let do := Depacketizer.comb l (depacketizer m) rx_valid rx_data
                              (depacketizer_ready p) in
  {| etherbone :=
       ResetInserter etherbone_reset_value (etherbone_reset r)
         (etherbone_next (etherbone m) (etherbone_inputs p));
     packetizer :=
       ResetInserter Packetizer.reset_state (packetizer_reset r)
         (Packetizer.next (packetizer m) (packetizer_sink p) tx_ready);
     depacketizer :=
       ResetInserter Depacketizer.reset_regs (depacketizer_reset r)
         (Depacketizer.next l (depacketizer m) rx_valid rx_data
                            (depacketizer_ready p) (timer_done p));
     tx_fifo :=
       ResetInserter SyncFIFO.reset_fifo (tx_fifo_reset r)
         (SyncFIFO.next tx_buffer_depth (tx_fifo m)
                        (Packetizer.source_valid po)
                        (Packetizer.source_data po) (phy_sink_ready p));
     rx_fifo :=
       ResetInserter SyncFIFO.reset_fifo (rx_fifo_reset r)
         (SyncFIFO.next rx_buffer_depth (rx_fifo m)
                        (phy_source_valid p) (phy_source_data p)
                        (Depacketizer.sink_ready do)) |}.

End Modules.

Arguments etherbone {EB} _.
Arguments packetizer {EB} _.
Arguments depacketizer {EB} _.
Arguments tx_fifo {EB} _.
Arguments rx_fifo {EB} _.
Arguments reset_modules {EB} _.
Arguments tick {EB EB_inputs} _ _ _ _ _ _ _.
Arguments phy_init_ready {EB_inputs} _.

End Link.

(** ** Arbitrated downstream chain *)

Module Downstream.

Section Chain.

Variable endpoint : Type.
Variable table : list (Z * endpoint).

(** What is free on a tick: the signals of the attached producers, the
    Arbiter's pick among them, and the [ready] of the packetizer's
    consumer. *)
Record tick_inputs : Type := {
  signals      : endpoint -> stream;
  pick         : nat;
  source_ready : bool
}.

(** The frames the packetizer emits, each as the list of the producers
    (their index in the table) its payload words came from, oldest frame
    first; the final entry is the frame under way.  A payload word goes
    out when the packetizer is in [DATA] and [valid] meets [ready]; a
    frame is over when the packetizer leaves [DATA] for [PREAMBLE]. *)
Fixpoint frames (arb : Arbiter.state) (pk : fsm_state) (cur : list nat)
    (inputs : list tick_inputs) : list (list nat) :=
  match inputs with
  | [] => [cur]
  | i :: inputs' =>
      let g := Arbiter.grant arb (pick i) in
      let sink := Arbiter.slave (SERWBCore.masters (signals i) table) g in
      let o := Packetizer.comb SERWBCore.core_layout pk sink (source_ready i) in
      let pk' := Packetizer.next pk sink (source_ready i) in
      let arb' := Arbiter.next arb g sink (Packetizer.sink_ready o) in
      let cur' :=
        if fsm_state_eqb pk DATA
           && (Packetizer.source_valid o && source_ready i)
        then cur ++ [g] else cur in
      if fsm_state_eqb pk DATA && fsm_state_eqb pk' PREAMBLE
      then cur' :: frames arb' pk' [] inputs'
      else frames arb' pk' cur' inputs'
  end.

(** All payload words of a frame come from one producer. *)
Definition one_producer (f : list nat) : Prop :=
  exists g, Forall (eq g) f.

End Chain.

Arguments signals {endpoint} _.
Arguments pick {endpoint} _.
Arguments source_ready {endpoint} _.
Arguments frames {endpoint} _ _ _ _ _.

End Downstream.

(** ** Auxiliary notions and instances *)

(** The packet of the spec's single-channel scenario. *)
Definition scenario_packet : packet :=
  {| p_port := 3; p_length := 8; p_payload := [0xAAAABBBB; 0xCCCCDDDD] |}.

(** Bytes per link word of a layout. *)
Definition word_byte_width (l : layout) : Z := payload_width l / 8.

(** A call raised [ValueError]. *)
Definition raised {A : Type} (r : SERWBCore.exn + A) : Prop :=
  exists msg, r = inl (SERWBCore.ValueError msg).

(** While the packetizer is outside [DATA] the frame under way has no
    payload word yet; the words it has all come from the producer the
    Arbiter is holding. *)
Definition chain_inv (arb : Arbiter.state) (pk : fsm_state)
    (cur : list nat) : Prop :=
  (pk <> DATA -> cur = [])
  /\ match arb with None => cur = [] | Some g => Forall (eq g) cur end.

(** Registers of a depacketizer in [DATA], and a flit it hands over. *)
Definition in_data (p c n : Z) : Depacketizer.regs :=
  {| Depacketizer.state := DATA; Depacketizer.r_port := p;
     Depacketizer.r_count := c; Depacketizer.r_length := n |}.

Definition flit (p n : Z) (is_last : bool) : stream :=
  {| valid := true; last := is_last; port := p; length := n; payload := [0] |}.

(** Two producers attached under ports 0 and 5; the second drives port 99
    on its own endpoint. *)
Definition two_producers : list (Z * nat) := [(0, 0%nat); (5, 1%nat)].

Definition busy (e : nat) : stream :=
  {| valid := true; last := Nat.eqb e 1; port := 99; length := 4;
     payload := [Z.of_nat e + 7] |}.

(** A core caught in the middle of a frame in both directions, with words
    queued in both buffers, on a tick where the link is down. *)
Definition mid_frame : Link.modules unit :=
  {| Link.etherbone := tt;
     Link.packetizer := DATA;
     Link.depacketizer :=
       {| Depacketizer.state := DATA; Depacketizer.r_port := 1;
          Depacketizer.r_count := 2; Depacketizer.r_length := 16 |};
     Link.tx_fifo := [1; 2; 3];
     Link.rx_fifo := [4; 5] |}.

Definition link_down_pins : Link.pins unit :=
  {| Link.packetizer_sink := busy 0%nat;
     Link.depacketizer_ready := true;
     Link.phy_init_ready := false;
     Link.phy_sink_ready := true;
     Link.phy_source_valid := true;
     Link.phy_source_data := 9;
     Link.timer_done := false;
     Link.etherbone_inputs := tt |}.

(** Two producers that are always valid: the second sends one-word
    frames, the first marks its words as last from tick 5 on.  The
    Arbiter's pick alternates on every tick and each frame still holds
    the words of one producer. *)
Definition busy_until (t : nat) (e : nat) : stream :=
  {| valid := true; last := Nat.eqb e 1 || Nat.leb 5 t; port := 99;
     length := 4; payload := [Z.of_nat e + 7] |}.

Definition alternating (n : nat) : list (Downstream.tick_inputs nat) :=
  map (fun t => {| Downstream.signals := busy_until t;
                   Downstream.pick := Nat.modulo t 2;
                   Downstream.source_ready := true |})
      (seq 0 n).

(** ** Frames and runs *)

(** The frame of a packet on a [dw]-bit link: preamble, header, payload,
    each cut to the width of the link word. *)
Definition frame (l : layout) (P : packet) : list Z :=
  let dw := payload_width l in
  Fhdl.trunc dw preamble
  :: Packetizer.header dw (p_port P) (p_length P)
  :: map (Fhdl.trunc dw) (p_payload P).

(** Number of ticks of a schedule on which the consumer is ready. *)
Definition ready_ticks (readies : list bool) : nat :=
  List.length (filter (fun b : bool => b) readies).

(** What drives a depacketizer on one tick. *)
Record dp_inputs : Type := {
  tick_valid : bool;
  tick_data  : Z;
  tick_ready : bool;
  tick_done  : bool
}.

(** A depacketizer clocked through a list of ticks: the registers it
    ends with and the flits its consumer took on the way. *)
Fixpoint dp_run (l : layout) (r : Depacketizer.regs)
    (inputs : list dp_inputs) : Depacketizer.regs * list stream :=
  match inputs with
  | [] => (r, [])
  | i :: inputs' =>
      let o := Depacketizer.comb l r (tick_valid i) (tick_data i) (tick_ready i) in
      let r' := Depacketizer.next l r (tick_valid i) (tick_data i) (tick_ready i)
                  (tick_done i) in
      let (rn, flits) := dp_run l r' inputs' in
      (rn, if valid (Depacketizer.source o) && tick_ready i
           then Depacketizer.source o :: flits else flits)
  end.

(** A tick on which a word is handed over in [DATA], the timer quiet. *)
Definition handshake (d : Z) : dp_inputs :=
  {| tick_valid := true; tick_data := d; tick_ready := true; tick_done := false |}.

(** A tick of [DATA] on which nothing is handed over. *)
Definition stalled (i : dp_inputs) : Prop :=
  tick_valid i && tick_ready i = false /\ tick_done i = false.

(** ** Sequences of registrations *)

Inductive call (endpoint : Type) : Type :=
  | Downstream (port : Z) (ep : endpoint)
  | Upstream (port : Z) (ep : endpoint).

Arguments Downstream {endpoint} _ _.
Arguments Upstream {endpoint} _ _.

(** The core after a sequence of registration calls, each of which
    either registers or raises and is caught. *)
Fixpoint after_calls {endpoint : Type} (c : SERWBCore.core endpoint)
    (calls : list (call endpoint)) : SERWBCore.core endpoint :=
  match calls with
  | [] => c
  | Downstream port ep :: calls' =>
      after_calls (snd (SERWBCore.add_downstream_endpoint port ep c)) calls'
  | Upstream port ep :: calls' =>
      after_calls (snd (SERWBCore.add_upstream_endpoint port ep c)) calls'
  end.

Definition empty_core (endpoint : Type) : SERWBCore.core endpoint :=
  {| SERWBCore.downstream_endpoints := [];
     SERWBCore.upstream_endpoints := [] |}.

(** ** SERIO core *)

Module SERIOPacketizer.

(** The register [i_d]; the input [i] is the module's input once it has
    gone through the synchronizer. *)
Definition source (i_d i : Z) : stream :=
  {| valid   := negb (i =? i_d);
     last    := true;
     port    := 0;
     length  := 4;
     payload := [i] |}.

(** [self.sync += If(source.ready, i_d.eq(i))] *)
Definition next (i_d i : Z) (source_ready : bool) : Z :=
  if source_ready then i else i_d.

(** The words taken by the consumer over a list of ticks, each giving the
    input and the consumer's [ready]. *)
Fixpoint sent (i_d : Z) (ticks : list (Z * bool)) : list Z :=
  match ticks with
  | [] => []
  | (i, rdy) :: ticks' =>
      let tail := sent (next i_d i rdy) ticks' in
      if valid (source i_d i) && rdy then i :: tail else tail
  end.

End SERIOPacketizer.

Module SERIODepacketizer.

Definition sink_ready : bool := true.

(** [self.sync += If(sink.valid & sink.last, self.o.eq(sink.data))] *)
Definition next (o : Z) (sink : stream) : Z :=
  if valid sink && last sink then hd 0 (payload sink) else o.

Definition run (o : Z) (ticks : list stream) : Z := fold_left next ticks o.

End SERIODepacketizer.

Module SERIOCore.

(** The registrations of [SERIOCore.__init__]: its packetizer's source
    downstream, then its depacketizer's sink upstream, under one port
    (1 unless given). *)
Definition init {endpoint : Type} (port : Z)
    (packetizer_source depacketizer_sink : endpoint)
    : SERWBCore.method endpoint unit :=
  SERWBCore.bind endpoint
    (SERWBCore.add_downstream_endpoint port packetizer_source)
    (fun _ => SERWBCore.add_upstream_endpoint port depacketizer_sink).

End SERIOCore.

(** The core's layout, the summary of a flit a consumer frames by, and
    the number of ticks of a run on which a word is handed over. *)
Definition l32 : layout := packet_description 32.

Definition flit_tag (f : stream) : Z * Z * bool := (port f, length f, last f).

Definition handshakes (inputs : list dp_inputs) : nat :=
  List.length (filter (fun i => tick_valid i && tick_ready i) inputs).

(** The registers of a depacketizer fit the widths of their signals. *)
Definition regs_in_range (r : Depacketizer.regs) : Prop :=
  0 <= Depacketizer.r_port r < 2 ^ 8
  /\ 0 <= Depacketizer.r_count r < 2 ^ 16
  /\ 0 <= Depacketizer.r_length r < 2 ^ 16.

(** No port is a key twice in a dictionary of the core. *)
Definition unique_ports {endpoint : Type} (c : SERWBCore.core endpoint)
    : Prop :=
  NoDup (map fst (SERWBCore.downstream_endpoints c))
  /\ NoDup (map fst (SERWBCore.upstream_endpoints c)).

(** The values of a list that differ from the one before them, [prev]
    standing before the first. *)
Fixpoint changes (prev : Z) (xs : list Z) : list Z :=
  match xs with
  | [] => []
  | x :: xs' => if x =? prev then changes x xs' else x :: changes x xs'
  end.


(** ** Multi-channel core *)

Module SERWBCoreAXILite.

Inductive channel : Type := aw | w | ar | b | r.

Inductive exn : Type := AssertionError (msg : string).

(** What [__init__] builds besides the five buffers: the channels that
    get a packetizer, those that get a depacketizer, the buffers whose
    source feeds a PHY sink and those fed by a PHY source. *)
Record core : Type := {
  packetizers   : list channel;
  depacketizers : list channel;
  to_phy        : list channel;
  from_phy      : list channel
}.

(** [assert mode in ['master', 'slave']], then the [if mode=="master"]
    branch or its [else]. *)
Definition init (mode : string) : exn + core :=
  if (mode =? "master")%string || (mode =? "slave")%string then
    if (mode =? "master")%string then
      inr {| packetizers := [aw; w; ar]; depacketizers := [b; r];
             to_phy := [aw; w; ar]; from_phy := [b; r] |}
    else
      inr {| packetizers := [b; r]; depacketizers := [aw; w; ar];
             to_phy := [b; r]; from_phy := [aw; w; ar] |}
  else inl (AssertionError "mode has to be master or slave").

End SERWBCoreAXILite.

(** ** Test bench *)

Module FakeSerdes.

(** [data_ce = Signal(5, reset=0b00001)] *)
Definition reset : Z := 1.

(** [Cat(a, b)] with [a] on [wa] bits: [a] takes the low bits. *)
Definition Cat (a wa b : Z) : Z := Z.lor a (Z.shiftl b wa).

(** [data_ce.eq(Cat(data_ce[1:], data_ce[0]))] on the 5-bit register. *)
Definition next (data_ce : Z) : Z :=
  Fhdl.trunc 5 (Cat (Fhdl.slice 5 data_ce 1 5) 4 (Fhdl.slice 5 data_ce 0 1)).

(** [tx_ce] and [rx_ce]: bit 0 of the register. *)
Definition ce (data_ce : Z) : bool := Fhdl.slice 5 data_ce 0 1 =? 1.

(** The register [t] ticks after reset. *)
Definition at_tick (t : nat) : Z := Nat.iter t next reset.

End FakeSerdes.

Module FakePHY.

(** [If(self.init.ready, sink.ready.eq(self.serdes.tx_ce),
        If(sink.valid, self.serdes.tx_d.eq(sink.data)))] *)
Definition sink_ready (init_ready tx_ce : bool) : bool :=
  if init_ready then tx_ce else false.

Definition tx_d (init_ready sink_valid : bool) (sink_data : Z) : Z :=
  if init_ready then (if sink_valid then sink_data else 0) else 0.

(** [If(self.init.ready, source.valid.eq(self.serdes.rx_ce),
        source.data.eq(self.serdes.rx_d))] *)
Definition source_valid (init_ready rx_ce : bool) : bool :=
  if init_ready then rx_ce else false.

Definition source_data (init_ready : bool) (rx_d : Z) : Z :=
  if init_ready then rx_d else 0.

End FakePHY.

(** ** Instances for the runs *)

(** A tick of a depacketizer's run with nothing valid on its input. *)
Definition quiet : dp_inputs :=
  {| tick_valid := false; tick_data := 0; tick_ready := true;
     tick_done := false |}.

(** A tick on which the timer has expired. *)
Definition expired : dp_inputs :=
  {| tick_valid := false; tick_data := 0; tick_ready := true;
     tick_done := true |}.

(** A depacketizer that has seen a preamble, with stale registers. *)
Definition awaiting_header : Depacketizer.regs :=
  {| Depacketizer.state := PORT_LENGTH; Depacketizer.r_port := 9;
     Depacketizer.r_count := 7; Depacketizer.r_length := 12 |}.

(** A core with port 5 attached upstream only. *)
Definition upstream_only : SERWBCore.core nat :=
  {| SERWBCore.downstream_endpoints := [(0, 0%nat)];
     SERWBCore.upstream_endpoints := [(0, 1%nat); (5, 2%nat)] |}.

(** ** Frames behind the Arbiter, with their headers *)

(** A frame the packetizer has completed: the producer the Arbiter
    granted on the tick the header word went out, that word, and the
    producers the payload words came from. *)
Record emitted_frame : Type := {
  header_grant : nat;
  header_word  : Z;
  payload_from : list nat
}.

(** The completed frames of a run of the arbitrated chain.  The ticks are
    those of [Downstream.frames]; [hdr] is the latest header word to
    have gone out, with the grant of its tick: a header word goes out
    when the packetizer is in [PORT-LENGTH] and [valid] meets [ready]. *)
Fixpoint emitted_frames {endpoint : Type} (table : list (Z * endpoint))
    (arb : Arbiter.state) (pk : fsm_state) (hdr : nat * Z)
    (cur : list nat) (inputs : list (Downstream.tick_inputs endpoint))
    : list emitted_frame :=
  match inputs with
  | [] => []
  | i :: inputs' =>
      let g := Arbiter.grant arb (Downstream.pick i) in
      let sink :=
        Arbiter.slave (SERWBCore.masters (Downstream.signals i) table) g in
      let rdy := Downstream.source_ready i in
      let o := Packetizer.comb SERWBCore.core_layout pk sink rdy in
      let pk' := Packetizer.next pk sink rdy in
      let arb' := Arbiter.next arb g sink (Packetizer.sink_ready o) in
      let out := Packetizer.source_valid o && rdy in
      let hdr' :=
        if fsm_state_eqb pk PORT_LENGTH && out
        then (g, Packetizer.source_data o) else hdr in
      let cur' := if fsm_state_eqb pk DATA && out then cur ++ [g] else cur in
      if fsm_state_eqb pk DATA && fsm_state_eqb pk' PREAMBLE
      then {| header_grant := fst hdr'; header_word := snd hdr';
              payload_from := cur' |}
           :: emitted_frames table arb' pk' hdr' [] inputs'
      else emitted_frames table arb' pk' hdr' cur' inputs'
  end.



(** The wire of the core while the Arbiter keeps the grant on producer
    [g] of the table and that producer offers the packet [P]: on every
    tick the packetizer's sink is the intermediate endpoint that
    [do_finalize] builds for it. *)
Fixpoint granted_wire {endpoint : Type} (table : list (Z * endpoint))
    (g : nat) (P : packet) (st : fsm_state) (rest : list Z)
    (readies : list bool) : list Z :=
  match readies with
  | [] => []
  | rdy :: readies' =>
      let sink :=
        Arbiter.slave (SERWBCore.masters (fun _ => offer P rest) table) g in
      let o := Packetizer.comb SERWBCore.core_layout st sink rdy in
      let taken := valid sink && Packetizer.sink_ready o in
      let tail := granted_wire table g P (Packetizer.next st sink rdy)
                               (advance rest taken) readies' in
      if Packetizer.source_valid o && rdy
      then Packetizer.source_data o :: tail
      else tail
  end.

(** ** Packetizer feeding depacketizer, with the timer *)

(** [loopback] with the timer's [done] given tick by tick beside the
    consumer's [ready]. *)
Fixpoint loopback_timed (l : layout) (P : packet) (pk : fsm_state)
    (dp : Depacketizer.regs) (rest : list Z) (ticks : list (bool * bool))
    : list stream :=
  match ticks with
  | [] => []
  | (rdy, done) :: ticks' =>
      let sink := offer P rest in
      let dp_ready :=
        Depacketizer.sink_ready (Depacketizer.comb l dp false 0 rdy) in
      let po := Packetizer.comb l pk sink dp_ready in
      let v := Packetizer.source_valid po in
      let d := Packetizer.source_data po in
      let do := Depacketizer.comb l dp v d rdy in
      let tail :=
        loopback_timed l P (Packetizer.next pk sink dp_ready)
          (Depacketizer.next l dp v d rdy done)
          (advance rest (valid sink && Packetizer.sink_ready po))
          ticks' in
      if valid (Depacketizer.source do) && rdy
      then Depacketizer.source do :: tail
      else tail
  end.

Definition roundtrip_timed (l : layout) (P : packet)
    (ticks : list (bool * bool)) : list packet :=
  packets_of [] (loopback_timed l P Packetizer.reset_state
                   Depacketizer.reset_regs (p_payload P) ticks).

(** A producer that drives port 99 on its own endpoint. *)
Definition own_port_99 : packet :=
  {| p_port := 99; p_length := 8; p_payload := [0xAAAABBBB; 0xCCCCDDDD] |}.

(** * Properties *)

(** ** Signals *)

Lemma trunc_small (w v : Z) : 0 <= w -> 0 <= v < 2 ^ w -> Fhdl.trunc w v = v.
Proof.
  intros Hw Hv. unfold Fhdl.trunc.
  rewrite Z.land_ones by assumption.
  apply Z.mod_small; assumption.
Qed.

Lemma clamp_in (n i : Z) : 0 <= i <= n -> Fhdl.clamp n i = i.
Proof. unfold Fhdl.clamp. lia. Qed.

Lemma testbit_slice (n v lo hi i : Z) :
  0 <= lo < hi -> hi <= n -> 0 <= i ->
  Z.testbit (Fhdl.slice n v lo hi) i
  = Z.testbit v (i + lo) && (i <? hi - lo).
Proof.
  intros Hlo Hhi Hi. unfold Fhdl.slice.
  rewrite !clamp_in by lia.
  destruct (Z.leb_spec hi lo) as [H|_]; [lia|].
  rewrite Z.land_spec, Z.shiftr_spec, Z.testbit_ones by lia.
  destruct (Z.leb_spec 0 i); [|lia]. reflexivity.
Qed.

Lemma testbit_set_slice (n cur lo hi v i : Z) :
  0 <= lo < hi -> hi <= n -> 0 <= i ->
  Z.testbit (Fhdl.set_slice n cur lo hi v) i
  = if (lo <=? i) && (i <? hi) then Z.testbit v (i - lo)
    else Z.testbit cur i.
Proof.
  intros Hlo Hhi Hi. unfold Fhdl.set_slice.
  rewrite !clamp_in by lia.
  destruct (Z.leb_spec hi lo) as [H|_]; [lia|].
  rewrite Z.lor_spec, Z.ldiff_spec, !Z.shiftl_spec by lia.
  rewrite Z.land_spec.
  destruct (Z.leb_spec lo i) as [Hl|Hl].
  - rewrite !Z.testbit_ones by lia.
    destruct (Z.leb_spec 0 (i - lo)); [|lia].
    replace (i - lo <? hi - lo) with (i <? hi)
      by (destruct (Z.ltb_spec i hi), (Z.ltb_spec (i - lo) (hi - lo));
          lia || reflexivity).
    simpl. destruct (i <? hi); simpl.
    + rewrite andb_false_r, andb_true_r. reflexivity.
    + rewrite andb_true_r, andb_false_r, orb_false_r. reflexivity.
  - rewrite !(Z.testbit_neg_r _ (i - lo)) by lia.
    simpl. rewrite andb_true_r, orb_false_r. reflexivity.
Qed.

Lemma testbit_above (w v i : Z) :
  0 <= v < 2 ^ w -> w <= i -> Z.testbit v i = false.
Proof.
  intros Hv Hi.
  destruct (Z.eq_dec v 0) as [->|Hnz]; [apply Z.bits_0|].
  assert (0 <= w).
  { destruct (Z.le_gt_cases 0 w); [assumption|].
    rewrite Z.pow_neg_r in Hv by lia. lia. }
  apply Z.bits_above_log2; [lia|].
  assert (Z.log2 v < w) by (apply Z.log2_lt_pow2; lia). lia.
Qed.

(** ** Packetizer *)

Lemma header_port_field (dw p n : Z) :
  24 <= dw -> 0 <= p < 2 ^ 8 ->
  Fhdl.slice dw (Packetizer.header dw p n) 0 8 = p.
Proof.
  intros Hdw Hp. apply Z.bits_inj'. intros i Hi.
  unfold Packetizer.header.
  rewrite testbit_slice, !testbit_set_slice by lia.
  rewrite Z.bits_0.
  destruct (Z.ltb_spec (i + 0) 24), (Z.leb_spec 8 (i + 0)),
    (Z.ltb_spec (i + 0) 8), (Z.leb_spec 0 (i + 0)),
    (Z.ltb_spec i (8 - 0)); simpl; try lia;
    try (f_equal; lia);
    try (rewrite ?andb_true_r, ?andb_false_r; f_equal; lia);
    try (rewrite ?andb_true_r, ?andb_false_r; symmetry;
         apply (testbit_above 8); lia).
Qed.

Lemma header_length_field (dw p n : Z) :
  24 <= dw -> 0 <= n < 2 ^ 16 ->
  Fhdl.slice dw (Packetizer.header dw p n) 8 24 = n.
Proof.
  intros Hdw Hp. apply Z.bits_inj'. intros i Hi.
  unfold Packetizer.header.
  rewrite testbit_slice, !testbit_set_slice by lia.
  destruct (Z.ltb_spec (i + 8) 24), (Z.leb_spec 8 (i + 8)),
    (Z.ltb_spec i (24 - 8)); simpl; try lia;
    try (rewrite ?andb_true_r, ?andb_false_r; f_equal; lia);
    try (rewrite ?andb_true_r, ?andb_false_r; symmetry;
         apply (testbit_above 16); lia).
Qed.

Lemma wire_idle (l : layout) (P : packet) (readies : list bool) :
  wire l P PREAMBLE [] readies = [].
Proof.
  induction readies as [|rdy readies IH]; simpl; [reflexivity|].
  unfold advance; simpl. destruct rdy; exact IH.
Qed.

Lemma next_DATA_iff (sink : stream) (rdy : bool) :
  Packetizer.next DATA sink rdy = PREAMBLE <->
  rdy = true /\ last sink = true.
Proof.
  simpl. destruct rdy, (last sink); simpl; split; intros H;
    try discriminate; try (destruct H; discriminate); auto.
Qed.

(** C2, as the spec's scenario words it: the header word 0x00180003 is not
    what the 32-bit packetizer emits for port 3 and length 8. *)
Lemma C2_scenario_frame_differs :
  frame_of (packet_description 32) scenario_packet 4
  <> [0x5AA55AA5; 0x00180003; 0xAAAABBBB; 0xCCCCDDDD].
Proof. vm_compute. discriminate. Qed.

(** C2, amended: with a consumer that is always ready, the 32-bit
    packetizer serializes port 3, length 8, payload
    [0xAAAABBBB, 0xCCCCDDDD] as the four words
    [0x5AA55AA5, 0x00000803, 0xAAAABBBB, 0xCCCCDDDD] and then stays
    silent; bits 0-7 of the header word hold the port 3 and bits 8-23 the
    length 8. *)
Theorem C2_scenario_frame (n : nat) :
  frame_of (packet_description 32) scenario_packet (4 + n)
  = [0x5AA55AA5; 0x00000803; 0xAAAABBBB; 0xCCCCDDDD]
  /\ Fhdl.slice 32 0x00000803 0 8 = 3
  /\ Fhdl.slice 32 0x00000803 8 24 = 8.
Proof.
  split; [|split; reflexivity].
  unfold frame_of. rewrite repeat_app.
  change (wire (packet_description 32) scenario_packet
            Packetizer.reset_state (p_payload scenario_packet)
            (repeat true 4 ++ repeat true n))
    with (0x5AA55AA5 :: 0x00000803 :: 0xAAAABBBB :: 0xCCCCDDDD
            :: wire (packet_description 32) scenario_packet PREAMBLE []
                 (repeat true n)).
  rewrite wire_idle. reflexivity.
Qed.

(** C3: in [DATA] with the consumer ready and [last] high on the sink while
    [valid] is low, no word is accepted and the packetizer still returns
    to [PREAMBLE]: the transition is taken on [source.ready & sink.last]
    alone. *)
Theorem C3_preamble_without_accepted_word :
  let sink := {| valid := false; last := true; port := 1; length := 4;
                 payload := [0] |} in
  let o := Packetizer.comb (packet_description 32) DATA sink true in
  valid sink && Packetizer.sink_ready o = false
  /\ Packetizer.source_valid o && true = false
  /\ Packetizer.next DATA sink true = PREAMBLE.
Proof. repeat split. Qed.

(** ** Depacketizer *)

(** C4, as stated: in [PORT_LENGTH] an expired timer does not bring the
    depacketizer back to [PREAMBLE]. *)
Lemma C4_no_escape_from_port_length :
  Depacketizer.state
    (Depacketizer.next (packet_description 32)
       {| Depacketizer.state := PORT_LENGTH; Depacketizer.r_port := 0;
          Depacketizer.r_count := 0; Depacketizer.r_length := 0 |}
       false 0 true true)
  <> PREAMBLE.
Proof. vm_compute. discriminate. Qed.

(** C4, amended: in [DATA] an expired timer brings the depacketizer back
    to [PREAMBLE] whatever the handshake, without counting the word of
    that tick.  In [PORT_LENGTH] the timer is made to count but its
    expiry changes nothing: the depacketizer stays there until a word
    arrives and then moves to [DATA]. *)
Theorem C4_timeout_escape (l : layout) (p c n : Z) (v : bool) (d : Z)
    (rdy done : bool) :
  let in_data :=
    {| Depacketizer.state := DATA; Depacketizer.r_port := p;
       Depacketizer.r_count := c; Depacketizer.r_length := n |} in
  let in_port_length :=
    {| Depacketizer.state := PORT_LENGTH; Depacketizer.r_port := p;
       Depacketizer.r_count := c; Depacketizer.r_length := n |} in
  Depacketizer.next l in_data v d rdy true
  = {| Depacketizer.state := PREAMBLE; Depacketizer.r_port := p;
       Depacketizer.r_count := c; Depacketizer.r_length := n |}
  /\ Depacketizer.timer_wait (Depacketizer.comb l in_data v d rdy) = true
  /\ Depacketizer.timer_wait (Depacketizer.comb l in_port_length v d rdy)
     = true
  /\ Depacketizer.next l in_port_length v d rdy done
     = Depacketizer.next l in_port_length v d rdy false
  /\ Depacketizer.state (Depacketizer.next l in_port_length v d rdy done)
     = (if v then DATA else PORT_LENGTH).
Proof.
  repeat split; destruct v; reflexivity.
Qed.

(** [length[2:]] is the length divided by 4, whatever the layout. *)
Lemma length_slice_div4 (n : Z) :
  0 <= n < 2 ^ 16 -> Fhdl.slice 16 n 2 16 = n / 4.
Proof.
  intros Hn. unfold Fhdl.slice, Fhdl.clamp. simpl.
  rewrite Z.land_ones by lia.
  rewrite Z.shiftr_div_pow2 by lia.
  change (2 ^ 2) with 4.
  apply Z.mod_small. split.
  - apply Z.div_pos; lia.
  - apply Z.div_lt_upper_bound; lia.
Qed.

Lemma source_last_fixed_stride (l : layout) (p c n : Z) (v : bool) (d : Z)
    (rdy : bool) :
  0 <= n < 2 ^ 16 ->
  last (Depacketizer.source
          (Depacketizer.comb l
             {| Depacketizer.state := DATA; Depacketizer.r_port := p;
                Depacketizer.r_count := c; Depacketizer.r_length := n |}
             v d rdy))
  = (c =? n / 4 - 1).
Proof.
  intros Hn. simpl. unfold Depacketizer.source_last. simpl.
  rewrite length_slice_div4 by assumption. reflexivity.
Qed.

(** C5: a depacketizer on a 40-bit layout (5 bytes per word) that has
    latched length 20 does not mark the word of count 3 = 20/5 - 1 as the
    last one, and marks the word of count 4 = 20/4 - 1: the comparison
    uses [length[2:]], the length over 4, for every layout. *)
Theorem C5_last_uses_four_byte_stride :
  let l := packet_description_ (packet_description 40) in
  let at_count c :=
    {| Depacketizer.state := DATA; Depacketizer.r_port := 0;
       Depacketizer.r_count := c; Depacketizer.r_length := 20 |} in
  word_byte_width l = 5
  /\ 20 / word_byte_width l - 1 = 3
  /\ last (Depacketizer.source (Depacketizer.comb l (at_count 3) true 0 true))
     = false
  /\ last (Depacketizer.source (Depacketizer.comb l (at_count 4) true 0 true))
     = true.
Proof. repeat split. Qed.

(** ** Registration *)

Section Registration.

Variable endpoint : Type.
Implicit Types (c : SERWBCore.core endpoint) (port : Z) (ep : endpoint).

Lemma contains_In port (d : list (Z * endpoint)) :
  SERWBCore.contains port d = true <-> In port (map fst d).
Proof.
  unfold SERWBCore.contains. rewrite existsb_exists. split.
  - intros (k & Hk & E). apply Z.eqb_eq in E. subst. assumption.
  - intros H. exists port. split; [assumption | apply Z.eqb_refl].
Qed.

Lemma add_downstream_raises c port ep :
  raised (fst (SERWBCore.add_downstream_endpoint port ep c))
  <-> In port (map fst (SERWBCore.downstream_endpoints c)).
Proof.
  rewrite <- contains_In. unfold SERWBCore.add_downstream_endpoint.
  destruct (SERWBCore.contains port (SERWBCore.downstream_endpoints c));
    simpl; split; intros H; try discriminate;
    [reflexivity | eexists; reflexivity | destruct H; discriminate].
Qed.

Lemma add_upstream_raises c port ep :
  raised (fst (SERWBCore.add_upstream_endpoint port ep c))
  <-> In port (map fst (SERWBCore.upstream_endpoints c)).
Proof.
  rewrite <- contains_In. unfold SERWBCore.add_upstream_endpoint.
  destruct (SERWBCore.contains port (SERWBCore.upstream_endpoints c));
    simpl; split; intros H; try discriminate;
    [reflexivity | eexists; reflexivity | destruct H; discriminate].
Qed.

Lemma add_downstream_state c port ep :
  snd (SERWBCore.add_downstream_endpoint port ep c)
  = if SERWBCore.contains port (SERWBCore.downstream_endpoints c) then c
    else {| SERWBCore.downstream_endpoints :=
              SERWBCore.downstream_endpoints c ++ [(port, ep)];
            SERWBCore.upstream_endpoints := SERWBCore.upstream_endpoints c |}.
Proof.
  unfold SERWBCore.add_downstream_endpoint.
  destruct (SERWBCore.contains _ _); reflexivity.
Qed.

Lemma add_upstream_state c port ep :
  snd (SERWBCore.add_upstream_endpoint port ep c)
  = if SERWBCore.contains port (SERWBCore.upstream_endpoints c) then c
    else {| SERWBCore.downstream_endpoints := SERWBCore.downstream_endpoints c;
            SERWBCore.upstream_endpoints :=
              SERWBCore.upstream_endpoints c ++ [(port, ep)] |}.
Proof.
  unfold SERWBCore.add_upstream_endpoint.
  destruct (SERWBCore.contains _ _); reflexivity.
Qed.

(** C9: [add_downstream_endpoint] raises [ValueError] exactly when the
    port is already a key of the downstream dictionary, and
    [add_upstream_endpoint] exactly when it is a key of the upstream one;
    a call that raises leaves both dictionaries as they were; a call
    never touches the dictionary of the other direction, so a port
    attached downstream is still free upstream, and the constructor
    attaches its Etherbone port in both directions without error. *)
Theorem C9_duplicate_port_raises c port ep ep' :
  (raised (fst (SERWBCore.add_downstream_endpoint port ep c))
   <-> In port (map fst (SERWBCore.downstream_endpoints c)))
  /\ (raised (fst (SERWBCore.add_upstream_endpoint port ep c))
      <-> In port (map fst (SERWBCore.upstream_endpoints c)))
  /\ (raised (fst (SERWBCore.add_downstream_endpoint port ep c))
      -> snd (SERWBCore.add_downstream_endpoint port ep c) = c)
  /\ (raised (fst (SERWBCore.add_upstream_endpoint port ep c))
      -> snd (SERWBCore.add_upstream_endpoint port ep c) = c)
  /\ SERWBCore.upstream_endpoints
       (snd (SERWBCore.add_downstream_endpoint port ep c))
     = SERWBCore.upstream_endpoints c
  /\ SERWBCore.downstream_endpoints
       (snd (SERWBCore.add_upstream_endpoint port ep c))
     = SERWBCore.downstream_endpoints c
  /\ (~ raised (fst (SERWBCore.add_downstream_endpoint port ep c))
      -> ~ In port (map fst (SERWBCore.upstream_endpoints c))
      -> SERWBCore.add_upstream_endpoint port ep'
           (snd (SERWBCore.add_downstream_endpoint port ep c))
         = (inr tt,
            {| SERWBCore.downstream_endpoints :=
                 SERWBCore.downstream_endpoints c ++ [(port, ep)];
               SERWBCore.upstream_endpoints :=
                 SERWBCore.upstream_endpoints c ++ [(port, ep')] |}))
  /\ SERWBCore.init port ep ep'
     = (inr tt,
        {| SERWBCore.downstream_endpoints := [(port, ep)];
           SERWBCore.upstream_endpoints := [(port, ep')] |}).
Proof.
  split; [apply add_downstream_raises|].
  split; [apply add_upstream_raises|].
  split.
  { intros H. apply add_downstream_raises, contains_In in H.
    rewrite add_downstream_state, H. reflexivity. }
  split.
  { intros H. apply add_upstream_raises, contains_In in H.
    rewrite add_upstream_state, H. reflexivity. }
  split.
  { rewrite add_downstream_state. destruct (SERWBCore.contains _ _);
      reflexivity. }
  split.
  { rewrite add_upstream_state. destruct (SERWBCore.contains _ _);
      reflexivity. }
  split; [|reflexivity].
  intros Hd Hu.
  rewrite add_downstream_raises, <- contains_In in Hd.
  rewrite <- contains_In in Hu.
  apply not_true_is_false in Hd. apply not_true_is_false in Hu.
  unfold SERWBCore.add_downstream_endpoint. rewrite Hd. simpl.
  unfold SERWBCore.add_upstream_endpoint. simpl. rewrite Hu. reflexivity.
Qed.

(** ** Finalization *)

Lemma sel_from_no_match (d : list (Z * endpoint)) port :
  ~ In port (map fst d) ->
  forall i sel, SERWBCore.sel_from endpoint i d port sel = sel.
Proof.
  induction d as [|[k v] d IH]; intros Hn i sel; simpl; [reflexivity|].
  simpl in Hn.
  destruct (Z.eqb_spec port k) as [E|_]; [exfalso; apply Hn; left; auto|].
  apply IH. intros H. apply Hn. right. assumption.
Qed.

(** C10: when the port of the depacketizer's output equals none of the
    keys of the upstream dictionary, no [If] of the loop fires and the
    Dispatcher's [sel] keeps its reset value 0; entry 0 of the slave list
    is the endpoint attached first, so that consumer is the one
    selected. *)
Theorem C10_unmatched_port_selects_first (d : list (Z * endpoint)) port :
  ~ In port (map fst d) ->
  SERWBCore.dispatcher_sel d port = 0%nat
  /\ nth_error (SERWBCore.slaves d) (SERWBCore.dispatcher_sel d port)
     = option_map snd (hd_error d).
Proof.
  intros Hn. unfold SERWBCore.dispatcher_sel.
  rewrite sel_from_no_match by assumption.
  split; [reflexivity|]. destruct d; reflexivity.
Qed.

(** The intermediate endpoint built for the item [(k, v)] of the
    downstream dictionary carries port [k] whatever port [v] drives, and
    when the packetizer's sink is that endpoint the header word it emits
    in [PORT-LENGTH] has [k] in bits 0-7. *)
Lemma stamped_port_in_header (signals : endpoint -> stream)
    (d : list (Z * endpoint)) (i : nat) (k : Z) (v : endpoint)
    (sink : stream) (rdy : bool) :
  nth_error d i = Some (k, v) ->
  0 <= k < 2 ^ 8 ->
  nth_error (SERWBCore.masters signals d) i = Some sink ->
  port sink = k
  /\ Fhdl.slice 32
       (Packetizer.source_data
          (Packetizer.comb SERWBCore.core_layout PORT_LENGTH sink rdy))
       0 8 = k.
Proof.
  intros Hd Hk Hs. unfold SERWBCore.masters in Hs.
  rewrite nth_error_map, Hd in Hs. simpl in Hs.
  injection Hs as <-.
  assert (Hp : port (SERWBCore.downstream_endpoint k (signals v)) = k).
  { simpl. apply trunc_small; lia. }
  split; [exact Hp|].
  change (Packetizer.source_data
            (Packetizer.comb SERWBCore.core_layout PORT_LENGTH
               (SERWBCore.downstream_endpoint k (signals v)) rdy))
    with (Packetizer.header 32
            (port (SERWBCore.downstream_endpoint k (signals v)))
            (length (signals v))).
  rewrite Hp. apply header_port_field; lia.
Qed.

End Registration.

(** ** Link-down reset *)

(** C8: in a core built with [with_rst_on_link_down=True], on a tick where
    [phy.init.ready] is low the five reset signals are high and the
    Etherbone channel, the packetizer, the depacketizer and both buffers
    come out of the tick with their reset values: the FSMs in [PREAMBLE],
    the depacketizer's registers at 0, the buffers empty, whatever they
    held and whatever their inputs were. *)
Theorem C8_link_down_holds_reset (EB EB_inputs : Type) (eb0 : EB)
    (eb_next : EB -> EB_inputs -> EB) (tx_depth rx_depth : Z)
    (m : Link.modules EB) (p : Link.pins EB_inputs) :
  Link.phy_init_ready p = false ->
  Link.link_down_resets true (Link.phy_init_ready p)
  = {| Link.etherbone_reset := true; Link.packetizer_reset := true;
       Link.depacketizer_reset := true; Link.tx_fifo_reset := true;
       Link.rx_fifo_reset := true |}
  /\ Link.tick eb0 eb_next tx_depth rx_depth true m p
     = {| Link.etherbone := eb0;
          Link.packetizer := PREAMBLE;
          Link.depacketizer :=
            {| Depacketizer.state := PREAMBLE; Depacketizer.r_port := 0;
               Depacketizer.r_count := 0; Depacketizer.r_length := 0 |};
          Link.tx_fifo := [];
          Link.rx_fifo := [] |}.
Proof.
  intros Hdown. unfold Link.tick. rewrite Hdown. split; reflexivity.
Qed.

(** ** Atomicity of frames behind the Arbiter *)

Section Atomicity.

Variable endpoint : Type.
Variable table : list (Z * endpoint).

Lemma chain_inv_one_producer arb pk cur :
  chain_inv arb pk cur -> Downstream.one_producer cur.
Proof.
  intros [_ H]. destruct arb as [g|].
  - exists g. assumption.
  - subst. exists 0%nat. constructor.
Qed.

Lemma chain_inv_nil arb pk : chain_inv arb pk [].
Proof. split; [reflexivity | destruct arb; [constructor | reflexivity]]. Qed.

Lemma chain_inv_snoc arb pk cur pick :
  chain_inv arb pk cur ->
  Forall (eq (Arbiter.grant arb pick)) (cur ++ [Arbiter.grant arb pick]).
Proof.
  intros [_ H]. apply Forall_app. split.
  - destruct arb as [g|]; simpl; [assumption | subst; constructor].
  - repeat constructor.
Qed.

Lemma frames_one_producer (inputs : list (Downstream.tick_inputs endpoint)) :
  forall arb pk cur,
    chain_inv arb pk cur ->
    Forall Downstream.one_producer (Downstream.frames table arb pk cur inputs).
Proof.
  induction inputs as [|i inputs IH]; intros arb pk cur Hinv.
  - simpl. constructor; [|constructor].
    eapply chain_inv_one_producer; eassumption.
  - cbn [Downstream.frames].
    set (g := Arbiter.grant arb (Downstream.pick i)).
    set (sink := Arbiter.slave
                   (SERWBCore.masters (Downstream.signals i) table) g).
    destruct pk.
    + (* PREAMBLE: nothing is accepted *)
      destruct Hinv as [Hcur _]. rewrite (Hcur ltac:(discriminate)).
      assert (Harb : Arbiter.next arb g sink
                (Packetizer.sink_ready
                   (Packetizer.comb SERWBCore.core_layout PREAMBLE sink
                      (Downstream.source_ready i))) = arb).
      { unfold Arbiter.next. simpl. destruct (valid sink); simpl;
          rewrite ?andb_false_r; reflexivity. }
      rewrite Harb. simpl. apply IH, chain_inv_nil.
    + (* PORT_LENGTH: nothing is accepted *)
      destruct Hinv as [Hcur _]. rewrite (Hcur ltac:(discriminate)).
      assert (Harb : Arbiter.next arb g sink
                (Packetizer.sink_ready
                   (Packetizer.comb SERWBCore.core_layout PORT_LENGTH sink
                      (Downstream.source_ready i))) = arb).
      { unfold Arbiter.next. simpl. rewrite andb_false_r. reflexivity. }
      rewrite Harb. simpl. apply IH, chain_inv_nil.
    + (* DATA *)
      pose proof (chain_inv_snoc arb DATA cur (Downstream.pick i) Hinv)
        as Hsnoc. fold g in Hsnoc.
      unfold Arbiter.next. simpl.
      destruct (valid sink), (Downstream.source_ready i), (last sink);
        simpl.
      * constructor; [exists g; assumption | apply IH, chain_inv_nil].
      * apply IH. split; [intros H; contradiction | assumption].
      * apply IH. assumption.
      * apply IH. assumption.
      * constructor;
          [eapply chain_inv_one_producer; eassumption|].
        apply IH, chain_inv_nil.
      * apply IH. assumption.
      * apply IH. assumption.
      * apply IH. assumption.
Qed.

(** C6: behind an Arbiter that keeps the grant from a producer's first
    accepted word to its end-of-message word, whatever the producers
    drive, whatever the Arbiter picks between frames and whenever the
    packetizer's consumer is ready, the payload words of every frame the
    packetizer emits come from one producer. *)
Theorem C6_frames_from_one_producer
    (inputs : list (Downstream.tick_inputs endpoint)) :
  Forall Downstream.one_producer
    (Downstream.frames table Arbiter.reset_state Packetizer.reset_state []
       inputs).
Proof. apply frames_one_producer, chain_inv_nil. Qed.

End Atomicity.

(** ** Round trip *)

Lemma loopback_idle (l : layout) (P : packet) (readies : list bool) :
  forall dp,
    Depacketizer.state dp = PREAMBLE ->
    loopback l P PREAMBLE dp [] readies = [].
Proof.
  induction readies as [|rdy readies IH]; intros dp Hdp; [reflexivity|].
  cbn [loopback]. unfold Depacketizer.comb, Depacketizer.next.
  rewrite Hdp. simpl. apply IH. assumption.
Qed.

Lemma loopback_data_tick (P : packet) (p c n w : Z) (rest : list Z)
    (readies : list bool) :
  loopback (packet_description 32) P DATA (in_data p c n) (w :: rest)
    (true :: readies)
  = flit p n (Depacketizer.source_last (in_data p c n))
    :: loopback (packet_description 32) P
         (match rest with [] => PREAMBLE | _ => DATA end)
         {| Depacketizer.state :=
              if Depacketizer.source_last (in_data p c n)
              then PREAMBLE else DATA;
            Depacketizer.r_port := p;
            Depacketizer.r_count := Fhdl.trunc 16 (c + 1);
            Depacketizer.r_length := n |}
         rest readies.
Proof. destruct rest; reflexivity. Qed.

Lemma roundtrip_data (P : packet) (p n : Z) (k : nat) :
  0 <= n < 2 ^ 16 ->
  forall rest acc c,
    rest <> [] ->
    0 <= c ->
    c + Z.of_nat (List.length rest) = n / 4 ->
    packets_of acc
      (loopback (packet_description 32) P DATA (in_data p c n) rest
         (repeat true (List.length rest + k)))
    = [{| p_port := p; p_length := n;
          p_payload := acc ++ repeat 0 (List.length rest) |}].
Proof.
  intros Hn. induction rest as [|w rest IH]; intros acc c Hne Hc Hlen;
    [contradiction|].
  assert (Hq : n / 4 < 2 ^ 14) by (apply Z.div_lt_upper_bound; lia).
  cbn [List.length Nat.add repeat]. rewrite loopback_data_tick.
  unfold Depacketizer.source_last.
  cbn [in_data Depacketizer.r_count Depacketizer.r_length].
  rewrite length_slice_div4 by assumption.
  cbn [List.length] in Hlen.
  destruct rest as [|w' rest].
  - replace (c =? n / 4 - 1) with true
      by (symmetry; apply Z.eqb_eq; cbn [List.length] in Hlen; lia).
    cbn [packets_of flit last port length payload hd].
    rewrite loopback_idle by reflexivity. reflexivity.
  - replace (c =? n / 4 - 1) with false
      by (symmetry; apply Z.eqb_neq; cbn [List.length] in Hlen; lia).
    cbn [packets_of flit last port length payload hd].
    rewrite trunc_small by (cbn [List.length] in Hlen; lia).
    change ({| Depacketizer.state := DATA; Depacketizer.r_port := p;
               Depacketizer.r_count := c + 1; Depacketizer.r_length := n |})
      with (in_data p (c + 1) n).
    rewrite IH; [| discriminate | lia | cbn [List.length] in *; lia].
    rewrite <- app_assoc. reflexivity.
Qed.

Lemma loopback_header_ticks (P : packet) (w : Z) (rest : list Z)
    (readies : list bool) :
  let h := Packetizer.header 32 (p_port P) (p_length P) in
  loopback (packet_description 32) P PREAMBLE Depacketizer.reset_regs
    (w :: rest) (true :: true :: readies)
  = loopback (packet_description 32) P DATA
      (in_data (Fhdl.trunc 8 (Fhdl.slice 32 h 0 8)) 0
               (Fhdl.trunc 16 (Fhdl.slice 32 h 8 24)))
      (w :: rest) readies.
Proof. reflexivity. Qed.

(** What the loopback delivers for a well-formed packet on the 32-bit
    link when the consumer is always ready: one packet with the port, the
    length and the number of words of [P], every payload word 0. *)
Lemma roundtrip_payload_zeroed (P : packet) (k : nat) :
  0 <= p_port P < 2 ^ 8 ->
  p_payload P <> [] ->
  p_length P = 4 * Z.of_nat (List.length (p_payload P)) ->
  p_length P <= 65535 ->
  roundtrip (packet_description 32) P
    (repeat true (2 + List.length (p_payload P) + k))
  = [{| p_port := p_port P; p_length := p_length P;
        p_payload := repeat 0 (List.length (p_payload P)) |}].
Proof.
  intros Hp Hne Hlen Hmax. unfold roundtrip.
  destruct (p_payload P) as [|w rest] eqn:E; [contradiction|].
  cbn [Nat.add repeat]. unfold Packetizer.reset_state.
  rewrite loopback_header_ticks.
  rewrite header_port_field, header_length_field by lia.
  rewrite !trunc_small by lia.
  change (S (List.length rest + k)) with (List.length (w :: rest) + k)%nat.
  rewrite roundtrip_data; try lia; try discriminate.
  - reflexivity.
  - rewrite Hlen. rewrite Z.mul_comm, Z.div_mul by lia. lia.
Qed.

(** C1: on the 32-bit link with an always-ready consumer, the packet
    {port 3, length 8, payload [0xAAAABBBB, 0xCCCCDDDD]} comes out of the
    depacketizer with its port and length and with both payload words 0:
    [data_write] of the depacketizer assigns [sink.data] from the payload
    field of [source], and nothing assigns that field. *)
Theorem C1_roundtrip_loses_payload :
  roundtrip (packet_description 32) scenario_packet (repeat true 4)
  = [{| p_port := 3; p_length := 8; p_payload := [0; 0] |}]
  /\ roundtrip (packet_description 32) scenario_packet (repeat true 4)
     <> [scenario_packet].
Proof. split; [reflexivity | vm_compute; discriminate]. Qed.

(** ** Instances *)

Lemma stamped_port_in_header_instance :
  nth_error two_producers 1 = Some (5, 1%nat)
  /\ 0 <= 5 < 2 ^ 8
  /\ nth_error (SERWBCore.masters busy two_producers) 1
     = Some (SERWBCore.downstream_endpoint 5 (busy 1%nat))
  /\ port (SERWBCore.downstream_endpoint 5 (busy 1%nat)) = 5
  /\ Fhdl.slice 32
       (Packetizer.source_data
          (Packetizer.comb SERWBCore.core_layout PORT_LENGTH
             (SERWBCore.downstream_endpoint 5 (busy 1%nat)) true))
       0 8 = 5.
Proof.
  assert (H1 : nth_error two_producers 1 = Some (5, 1%nat)) by reflexivity.
  assert (H2 : 0 <= 5 < 2 ^ 8) by lia.
  assert (H3 : nth_error (SERWBCore.masters busy two_producers) 1
               = Some (SERWBCore.downstream_endpoint 5 (busy 1%nat)))
    by reflexivity.
  split; [exact H1|]. split; [exact H2|]. split; [exact H3|].
  exact (stamped_port_in_header nat busy two_producers 1 5 1%nat
           (SERWBCore.downstream_endpoint 5 (busy 1%nat)) true H1 H2 H3).
Defined.

Lemma C10_unmatched_port_selects_first_witness :
  ~ In 7 (map fst two_producers)
  /\ SERWBCore.dispatcher_sel two_producers 7 = 0%nat
  /\ nth_error (SERWBCore.slaves two_producers)
       (SERWBCore.dispatcher_sel two_producers 7)
     = option_map snd (hd_error two_producers).
Proof.
  assert (H : ~ In 7 (map fst two_producers)).
  { simpl. intros [E | [E | []]]; discriminate. }
  split; [exact H|].
  exact (C10_unmatched_port_selects_first nat two_producers 7 H).
Defined.

Lemma C8_link_down_holds_reset_witness :
  Link.phy_init_ready link_down_pins = false
  /\ Link.tick tt (fun s _ => s) 8 8 true mid_frame link_down_pins
     = Link.reset_modules tt.
Proof.
  assert (H : Link.phy_init_ready link_down_pins = false) by reflexivity.
  split; [exact H|].
  exact (proj2 (C8_link_down_holds_reset unit unit tt (fun s _ => s) 8 8
                  mid_frame link_down_pins H)).
Defined.

(** With the link up the same tick moves every module on: the reset is
    what empties them. *)
Example link_up_keeps_content :
  Link.tick tt (fun s _ => s) 8 8 true mid_frame
    {| Link.packetizer_sink := busy 0%nat;
       Link.depacketizer_ready := true;
       Link.phy_init_ready := true;
       Link.phy_sink_ready := true;
       Link.phy_source_valid := true;
       Link.phy_source_data := 9;
       Link.timer_done := false;
       Link.etherbone_inputs := tt |}
  = {| Link.etherbone := tt;
       Link.packetizer := DATA;
       Link.depacketizer :=
         {| Depacketizer.state := DATA; Depacketizer.r_port := 1;
            Depacketizer.r_count := 3; Depacketizer.r_length := 16 |};
       Link.tx_fifo := [2; 3; 7];
       Link.rx_fifo := [5; 9] |}.
Proof. reflexivity. Qed.

Example frames_alternating :
  Downstream.frames two_producers Arbiter.reset_state PREAMBLE []
    (alternating 12)
  = [[0; 0; 0; 0]; [0]; [1]; []]%nat.
Proof. reflexivity. Qed.

(** ** The frame under back-pressure *)

Lemma payload_width_single (dw : Z) :
  payload_width (packet_description dw) = dw.
Proof. unfold payload_width. simpl. apply Z.add_0_r. Qed.

Lemma data_write_single (dw w : Z) :
  0 < dw ->
  Packetizer.data_write (packet_description dw) [w] 0 = Fhdl.trunc dw w.
Proof.
  intros Hdw. unfold Packetizer.data_write. rewrite payload_width_single.
  simpl. unfold Fhdl.set_slice. rewrite !clamp_in by lia.
  destruct (Z.leb_spec dw 0); [lia|].
  rewrite Z.sub_0_r, Z.shiftl_0_r, Z.ldiff_0_l, Z.lor_0_l. reflexivity.
Qed.

Lemma ready_ticks_cons (rdy : bool) (readies : list bool) :
  ready_ticks (rdy :: readies)
  = if rdy then S (ready_ticks readies) else ready_ticks readies.
Proof. destruct rdy; reflexivity. Qed.

Section Backpressure.

Variable dw : Z.
Hypothesis dw_pos : 0 < dw.
Variable P : packet.

Let l := packet_description dw.

Lemma wire_data (readies : list bool) :
  forall rest,
    rest <> [] ->
    wire l P DATA rest readies
    = firstn (ready_ticks readies) (map (Fhdl.trunc dw) rest).
Proof.
  induction readies as [|rdy readies IH]; intros rest Hne; [reflexivity|].
  destruct rest as [|w rest]; [contradiction|].
  rewrite ready_ticks_cons. cbn [wire offer].
  cbn [Packetizer.comb Packetizer.next Packetizer.source_valid
       Packetizer.source_data Packetizer.sink_ready valid last payload].
  unfold l at 1. rewrite data_write_single by assumption.
  destruct rdy; cbn [andb advance tl map firstn].
  - f_equal. destruct rest as [|w' rest].
    + rewrite wire_idle. destruct (ready_ticks readies); reflexivity.
    + apply IH. discriminate.
  - apply (IH (w :: rest)). discriminate.
Qed.

Lemma wire_port_length (readies : list bool) :
  forall rest,
    rest <> [] ->
    wire l P PORT_LENGTH rest readies
    = firstn (ready_ticks readies)
        (Packetizer.header dw (p_port P) (p_length P)
         :: map (Fhdl.trunc dw) rest).
Proof.
  induction readies as [|rdy readies IH]; intros rest Hne; [reflexivity|].
  destruct rest as [|w rest]; [contradiction|].
  rewrite ready_ticks_cons. cbn [wire offer].
  cbn [Packetizer.comb Packetizer.next Packetizer.source_valid
       Packetizer.source_data Packetizer.sink_ready valid last payload
       port length].
  unfold l at 1. rewrite payload_width_single.
  destruct rdy; cbn [andb advance tl firstn].
  - f_equal. apply wire_data. discriminate.
  - apply (IH (w :: rest)). discriminate.
Qed.

Lemma wire_preamble (readies : list bool) :
  forall rest,
    rest <> [] ->
    wire l P PREAMBLE rest readies
    = firstn (ready_ticks readies)
        (Fhdl.trunc dw preamble
         :: Packetizer.header dw (p_port P) (p_length P)
         :: map (Fhdl.trunc dw) rest).
Proof.
  induction readies as [|rdy readies IH]; intros rest Hne; [reflexivity|].
  destruct rest as [|w rest]; [contradiction|].
  rewrite ready_ticks_cons. cbn [wire offer].
  cbn [Packetizer.comb Packetizer.next Packetizer.source_valid
       Packetizer.source_data Packetizer.sink_ready valid last payload
       port length].
  unfold l at 1. rewrite payload_width_single.
  destruct rdy; cbn [andb advance tl firstn].
  - f_equal. apply wire_port_length. discriminate.
  - apply (IH (w :: rest)). discriminate.
Qed.

End Backpressure.

(** X1: however the consumer stalls, the words the packetizer has put on
    the wire after a schedule with [k] ready ticks are the first [k]
    words of the frame (preamble, header, payload in order): a stall
    neither drops nor repeats a word, and nothing follows the frame. *)
Theorem wire_is_frame_prefix (dw : Z) (P : packet) (readies : list bool) :
  0 < dw ->
  p_payload P <> [] ->
  wire (packet_description dw) P Packetizer.reset_state (p_payload P) readies
  = firstn (ready_ticks readies) (frame (packet_description dw) P).
Proof.
  intros Hdw Hne. unfold frame. rewrite payload_width_single.
  apply wire_preamble; assumption.
Qed.

Lemma map_trunc_small (dw : Z) (ws : list Z) :
  0 <= dw -> Forall (fun w => 0 <= w < 2 ^ dw) ws ->
  map (Fhdl.trunc dw) ws = ws.
Proof.
  intros Hdw Hin. induction Hin as [|w ws Hw _ IH]; [reflexivity|].
  simpl. rewrite trunc_small, IH by lia. reflexivity.
Qed.

Lemma trunc_preamble (dw : Z) : 31 <= dw -> Fhdl.trunc dw preamble = preamble.
Proof.
  intros Hdw. apply trunc_small; [lia|].
  split; [unfold preamble; lia|].
  apply Z.lt_le_trans with (2 ^ 31); [unfold preamble; lia|].
  apply Z.pow_le_mono_r; lia.
Qed.

(** X2: on a link of at least 31 bits, once the consumer has been ready
    on two ticks more than the packet has words, the wire holds exactly
    the preamble 0x5aa55aa5, the header and the payload words as the
    producer gave them, a payload word equal to the preamble included. *)
Theorem wire_complete (dw : Z) (P : packet) (readies : list bool) :
  31 <= dw ->
  p_payload P <> [] ->
  Forall (fun w => 0 <= w < 2 ^ dw) (p_payload P) ->
  (2 + List.length (p_payload P) <= ready_ticks readies)%nat ->
  wire (packet_description dw) P Packetizer.reset_state (p_payload P) readies
  = preamble :: Packetizer.header dw (p_port P) (p_length P) :: p_payload P.
Proof.
  intros Hdw Hne Hin Hrdy.
  rewrite wire_is_frame_prefix by (lia || assumption).
  rewrite firstn_all2.
  - unfold frame. rewrite payload_width_single.
    rewrite trunc_preamble, map_trunc_small by (lia || assumption).
    reflexivity.
  - unfold frame. simpl. rewrite length_map. lia.
Qed.

(** X3: for an 8-bit port and a 16-bit length the header word is
    [port + 256 * length]; it fits 24 bits, the bits above are 0. *)
Theorem header_closed_form (dw p n : Z) :
  24 <= dw -> 0 <= p < 2 ^ 8 -> 0 <= n < 2 ^ 16 ->
  Packetizer.header dw p n = p + 256 * n
  /\ 0 <= Packetizer.header dw p n < 2 ^ 24.
Proof.
  intros Hdw Hp Hn.
  assert (Hland : Z.land p (Z.shiftl n 8) = 0).
  { apply Z.bits_inj'. intros i Hi. rewrite Z.land_spec, Z.bits_0.
    destruct (Z.ltb_spec i 8).
    - rewrite Z.shiftl_spec_low by lia. apply andb_false_r.
    - rewrite (testbit_above 8 p i) by lia. reflexivity. }
  assert (Heq : Packetizer.header dw p n = p + 256 * n).
  { rewrite (Z.mul_comm 256 n). change 256 with (2 ^ 8).
    rewrite <- Z.shiftl_mul_pow2 by lia.
    rewrite Z.add_nocarry_lxor, Z.lxor_lor by assumption.
    apply Z.bits_inj'. intros i Hi. unfold Packetizer.header.
    rewrite !testbit_set_slice by lia.
    rewrite Z.lor_spec, Z.shiftl_spec, Z.bits_0 by lia.
    destruct (Z.leb_spec 8 i), (Z.ltb_spec i 24), (Z.leb_spec 0 i),
      (Z.ltb_spec i 8); simpl; try lia.
    - rewrite (testbit_above 8 p i) by lia. reflexivity.
    - rewrite (testbit_above 8 p i), (testbit_above 16 n (i - 8)) by lia.
      reflexivity.
    - rewrite Z.testbit_neg_r with (n := i - 8) by lia.
      rewrite Z.sub_0_r, orb_false_r. reflexivity. }
  split; [exact Heq | lia].
Qed.

(** ** Runs of the depacketizer *)

Lemma dp_run_app (l : layout) (a b : list dp_inputs) :
  forall r,
    dp_run l r (a ++ b)
    = (fst (dp_run l (fst (dp_run l r a)) b),
       snd (dp_run l r a) ++ snd (dp_run l (fst (dp_run l r a)) b)).
Proof.
  induction a as [|i a IH]; intros r.
  - simpl. destruct (dp_run l r b); reflexivity.
  - cbn [app dp_run]. rewrite IH.
    destruct (dp_run l _ a) as [ra fa]. cbn [fst snd].
    destruct (dp_run l ra b) as [rb fb]. cbn [fst snd].
    destruct (_ && _); reflexivity.
Qed.

(** X5: a depacketizer in [PREAMBLE] fed any number of ticks none of which
    carries a valid word equal to the preamble keeps its registers, hands
    nothing to its consumer and is ready for its input on every one of
    them: words outside a frame are discarded. *)
Theorem dp_preamble_skips (l : layout) (inputs : list dp_inputs) :
  forall r,
    Depacketizer.state r = PREAMBLE ->
    Forall (fun i => tick_valid i && (tick_data i =? preamble) = false)
           inputs ->
    dp_run l r inputs = (r, [])
    /\ Forall (fun i =>
                 Depacketizer.sink_ready
                   (Depacketizer.comb l r (tick_valid i) (tick_data i)
                      (tick_ready i)) = true) inputs.
Proof.
  induction inputs as [|i inputs IH]; intros r Hst Hall.
  - split; [reflexivity | constructor].
  - inversion Hall as [|? ? Hi Hrest]; subst.
    destruct (IH r Hst Hrest) as [Hrun Hrdy].
    assert (Hnext : Depacketizer.next l r (tick_valid i) (tick_data i)
                      (tick_ready i) (tick_done i) = r).
    { unfold Depacketizer.next. rewrite Hst, Hi. reflexivity. }
    split.
    + cbn [dp_run]. rewrite Hnext, Hrun.
      unfold Depacketizer.comb. rewrite Hst. reflexivity.
    + constructor; [|assumption].
      unfold Depacketizer.comb. rewrite Hst. reflexivity.
Qed.

(** X6: a depacketizer whose link word has 30 bits or fewer never leaves
    [PREAMBLE] and never delivers anything, whatever words of that width
    it receives: none of them can equal the 31-bit preamble. *)
Theorem dp_narrow_never_syncs (l : layout) (inputs : list dp_inputs) :
  payload_width l <= 30 ->
  Forall (fun i => 0 <= tick_data i < 2 ^ payload_width l) inputs ->
  dp_run l Depacketizer.reset_regs inputs = (Depacketizer.reset_regs, []).
Proof.
  intros Hw Hin. apply dp_preamble_skips; [reflexivity|].
  eapply Forall_impl; [|exact Hin]. intros i Hi. cbv beta in Hi.
  assert (2 ^ payload_width l <= 2 ^ 30).
  { destruct (Z.le_gt_cases 0 (payload_width l)).
    - apply Z.pow_le_mono_r; lia.
    - rewrite Z.pow_neg_r by lia. lia. }
  replace (tick_data i =? preamble) with false; [apply andb_false_r|].
  symmetry. apply Z.eqb_neq. unfold preamble. lia.
Qed.

(** X4: the header word the packetizer builds from an 8-bit port and a
    16-bit length on a link of at least 24 bits is read back by the
    depacketizer in [PORT-LENGTH] as that port and that length, the word
    count restarting at 0 and the FSM moving to [DATA]. *)
Theorem dp_latches_header (l : layout) (r : Depacketizer.regs) (p n : Z)
    (rdy done : bool) :
  Depacketizer.state r = PORT_LENGTH ->
  24 <= payload_width l ->
  0 <= p < 2 ^ 8 ->
  0 <= n < 2 ^ 16 ->
  Depacketizer.next l r true (Packetizer.header (payload_width l) p n)
    rdy done
  = in_data p 0 n.
Proof.
  intros Hst Hw Hp Hn. unfold Depacketizer.next. rewrite Hst.
  rewrite header_port_field, header_length_field by lia.
  rewrite !trunc_small by lia. reflexivity.
Qed.

Lemma dp_run_cons (l : layout) (r : Depacketizer.regs) (i : dp_inputs)
    (inputs : list dp_inputs) :
  let o := Depacketizer.comb l r (tick_valid i) (tick_data i) (tick_ready i) in
  let r' := Depacketizer.next l r (tick_valid i) (tick_data i) (tick_ready i)
              (tick_done i) in
  dp_run l r (i :: inputs)
  = (fst (dp_run l r' inputs),
     if valid (Depacketizer.source o) && tick_ready i
     then Depacketizer.source o :: snd (dp_run l r' inputs)
     else snd (dp_run l r' inputs)).
Proof. cbn [dp_run]. destruct (dp_run l _ inputs). reflexivity. Qed.

Lemma dp_data_tick (l : layout) (p c n : Z) (i : dp_inputs)
    (inputs : list dp_inputs) :
  0 <= n < 2 ^ 16 ->
  tick_done i = false ->
  dp_run l (in_data p c n) (i :: inputs)
  = if tick_valid i && tick_ready i then
      (fst (dp_run l
              {| Depacketizer.state :=
                   if c =? n / 4 - 1 then PREAMBLE else DATA;
                 Depacketizer.r_port := p;
                 Depacketizer.r_count := Fhdl.trunc 16 (c + 1);
                 Depacketizer.r_length := n |} inputs),
       {| valid := true; last := c =? n / 4 - 1; port := p; length := n;
          payload := Depacketizer.source_payload l |}
       :: snd (dp_run l
                 {| Depacketizer.state :=
                      if c =? n / 4 - 1 then PREAMBLE else DATA;
                    Depacketizer.r_port := p;
                    Depacketizer.r_count := Fhdl.trunc 16 (c + 1);
                    Depacketizer.r_length := n |} inputs))
    else dp_run l (in_data p c n) inputs.
Proof.
  intros Hn Hdone. rewrite dp_run_cons. cbv zeta.
  unfold Depacketizer.next, Depacketizer.comb.
  cbn [in_data Depacketizer.state Depacketizer.source valid last].
  rewrite Hdone. unfold Depacketizer.source_last.
  cbn [Depacketizer.r_count Depacketizer.r_length Depacketizer.r_port].
  rewrite length_slice_div4 by assumption.
  destruct (tick_valid i), (tick_ready i); cbn [andb];
    try reflexivity;
    match goal with
    | |- context [dp_run l ?r inputs] => destruct (dp_run l r inputs)
    end; reflexivity.
Qed.

Lemma dp_data_prefix (l : layout) (p n : Z) (inputs : list dp_inputs) :
  0 <= n < 2 ^ 16 ->
  Forall (fun i => tick_done i = false) inputs ->
  forall c,
    0 <= c ->
    c + Z.of_nat (handshakes inputs) <= n / 4 - 1 ->
    fst (dp_run l (in_data p c n) inputs)
    = in_data p (c + Z.of_nat (handshakes inputs)) n
    /\ map flit_tag (snd (dp_run l (in_data p c n) inputs))
       = repeat (p, n, false) (handshakes inputs).
Proof.
  intros Hn Hall. induction Hall as [|i inputs Hi _ IH]; intros c Hc Hle.
  - simpl. rewrite Z.add_0_r. split; reflexivity.
  - assert (Hq : n / 4 < 2 ^ 14) by (apply Z.div_lt_upper_bound; lia).
    rewrite dp_data_tick by assumption.
    unfold handshakes in *. cbn [filter] in *.
    destruct (tick_valid i && tick_ready i).
    + cbn [List.length] in *.
      replace (c =? n / 4 - 1) with false by (symmetry; apply Z.eqb_neq; lia).
      rewrite trunc_small by lia.
      change ({| Depacketizer.state := DATA; Depacketizer.r_port := p;
                 Depacketizer.r_count := c + 1; Depacketizer.r_length := n |})
        with (in_data p (c + 1) n).
      destruct (IH (c + 1)) as [Hr Hf]; [lia | lia |].
      cbn [fst snd map repeat]. rewrite Hr, Hf.
      split; [f_equal; lia | reflexivity].
    + apply IH; assumption.
Qed.

(** X7: on the 32-bit layout, a depacketizer that has latched a length of
    [n] bytes (at least 4) and receives words with the timer quiet
    delivers [n/4] flits, all with the latched port and length, only the
    final one marked last, and is back in [PREAMBLE] after it; ticks on
    which no word is handed over change nothing. *)
Theorem dp_frame_by_length (p n d : Z) (body : list dp_inputs) :
  4 <= n < 2 ^ 16 ->
  Forall (fun i => tick_done i = false) body ->
  Z.of_nat (handshakes body) = n / 4 - 1 ->
  Depacketizer.state (fst (dp_run l32 (in_data p 0 n) (body ++ [handshake d])))
  = PREAMBLE
  /\ map flit_tag (snd (dp_run l32 (in_data p 0 n) (body ++ [handshake d])))
     = repeat (p, n, false) (handshakes body) ++ [(p, n, true)].
Proof.
  intros Hn Hall Hk.
  destruct (dp_data_prefix l32 p n body ltac:(lia) Hall 0 ltac:(lia)
              ltac:(lia)) as [Hr Hf].
  rewrite dp_run_app. cbn [fst snd]. rewrite Hr, map_app, Hf.
  rewrite dp_data_tick by (lia || reflexivity).
  cbn [handshake tick_valid tick_ready andb fst snd dp_run map].
  replace (0 + Z.of_nat (handshakes body) =? n / 4 - 1) with true
    by (symmetry; apply Z.eqb_eq; lia).
  split; reflexivity.
Qed.

(** X8: whatever frame a depacketizer was in, after a tick with the timer
    expired, a preamble word and a header word it is in [DATA] with the
    port and length of the new header and a word count of 0: nothing of
    the aborted frame is left. *)
Theorem dp_recovers_after_timeout (l : layout) (p c n p' n' : Z)
    (abort sync header : dp_inputs) :
  24 <= payload_width l ->
  0 <= n < 2 ^ 16 ->
  0 <= p' < 2 ^ 8 ->
  0 <= n' < 2 ^ 16 ->
  tick_done abort = true ->
  tick_valid sync = true -> tick_data sync = preamble ->
  tick_valid header = true ->
  tick_data header = Packetizer.header (payload_width l) p' n' ->
  fst (dp_run l (in_data p c n) [abort; sync; header]) = in_data p' 0 n'.
Proof.
  intros Hw Hn Hp' Hn' Hab Hsv Hsd Hhv Hhd.
  cbn [dp_run].
  repeat match goal with
  | |- context [let (_, _) := ?x in _] => destruct x eqn:?
  end.
  unfold Depacketizer.next at 3.
  cbn [in_data Depacketizer.state]. rewrite Hab.
  unfold Depacketizer.next at 2. cbn [Depacketizer.state].
  rewrite Hsv, Hsd. cbn [andb]. rewrite Z.eqb_refl.
  rewrite Hhv, Hhd.
  rewrite dp_latches_header by (reflexivity || lia). reflexivity.
Qed.

(** ** Registration tables *)

Section Tables.

Variable endpoint : Type.
Implicit Types (c : SERWBCore.core endpoint) (port : Z) (ep : endpoint).

Lemma NoDup_snoc (ks : list Z) (k : Z) :
  NoDup ks -> ~ In k ks -> NoDup (ks ++ [k]).
Proof.
  intros Hnd Hk. induction Hnd as [|x ks Hx Hnd IH]; simpl.
  - constructor; [intros [] | constructor].
  - constructor.
    + rewrite in_app_iff. intros [H | [H | []]].
      * contradiction.
      * subst. apply Hk. left. reflexivity.
    + apply IH. intros H. apply Hk. right. assumption.
Qed.

Lemma add_downstream_unique c port ep :
  unique_ports c ->
  unique_ports (snd (SERWBCore.add_downstream_endpoint port ep c)).
Proof.
  intros [Hd Hu]. rewrite add_downstream_state.
  destruct (SERWBCore.contains port (SERWBCore.downstream_endpoints c)) eqn:E;
    [split; assumption|].
  split; [|assumption]. simpl. rewrite map_app. simpl.
  apply NoDup_snoc; [assumption|].
  rewrite <- contains_In. rewrite E. discriminate.
Qed.

Lemma add_upstream_unique c port ep :
  unique_ports c ->
  unique_ports (snd (SERWBCore.add_upstream_endpoint port ep c)).
Proof.
  intros [Hd Hu]. rewrite add_upstream_state.
  destruct (SERWBCore.contains port (SERWBCore.upstream_endpoints c)) eqn:E;
    [split; assumption|].
  split; [assumption|]. simpl. rewrite map_app. simpl.
  apply NoDup_snoc; [assumption|].
  rewrite <- contains_In. rewrite E. discriminate.
Qed.

(** X11: after any sequence of calls of [add_downstream_endpoint] and
    [add_upstream_endpoint] on a core with empty dictionaries, raising
    or not, no port is a key twice in either dictionary. *)
Theorem calls_keep_ports_unique (calls : list (call endpoint)) :
  unique_ports (after_calls (empty_core endpoint) calls).
Proof.
  assert (H0 : unique_ports (empty_core endpoint))
    by (split; constructor).
  revert H0. generalize (empty_core endpoint).
  induction calls as [|[port ep | port ep] calls IH]; intros c Hc; simpl.
  - assumption.
  - apply IH, add_downstream_unique, Hc.
  - apply IH, add_upstream_unique, Hc.
Qed.

Lemma sel_from_unique (d : list (Z * endpoint)) :
  forall (j i : nat) (k : Z) (v : endpoint) (sel : nat),
    NoDup (map fst d) ->
    nth_error d i = Some (k, v) ->
    SERWBCore.sel_from endpoint j d k sel = (j + i)%nat.
Proof.
  induction d as [|[k0 v0] d IH]; intros j i k v sel Hnd Hi.
  - destruct i; discriminate.
  - simpl in Hnd. inversion Hnd as [|? ? Hnotin Hnd']; subst.
    destruct i as [|i]; simpl in Hi |- *.
    + injection Hi as -> ->. rewrite Z.eqb_refl.
      rewrite sel_from_no_match by assumption. lia.
    + rewrite (IH (S j) i k v) by assumption. lia.
Qed.

(** X12: when the keys of the upstream dictionary are distinct, a port
    registered as item [i] makes the Dispatcher's [sel] equal to [i], and
    entry [i] of the slave list is the endpoint registered under that
    port. *)
Theorem dispatcher_selects_registered (d : list (Z * endpoint)) (i : nat)
    (k : Z) (v : endpoint) :
  NoDup (map fst d) ->
  nth_error d i = Some (k, v) ->
  SERWBCore.dispatcher_sel d k = i
  /\ nth_error (SERWBCore.slaves d) (SERWBCore.dispatcher_sel d k) = Some v.
Proof.
  intros Hnd Hi. unfold SERWBCore.dispatcher_sel.
  rewrite (sel_from_unique d 0 i k v) by assumption. simpl.
  split; [reflexivity|].
  unfold SERWBCore.slaves. rewrite nth_error_map, Hi. reflexivity.
Qed.

(** X13: on a core fresh from its constructor, [SERIOCore] raises exactly
    when its port is the port of the Etherbone channel; otherwise it
    leaves the Etherbone endpoints first and its own second in both
    dictionaries. *)
Theorem serio_port_conflict (p0 port : Z)
    (eb_source eb_sink src snk : endpoint) :
  let c := snd (SERWBCore.init p0 eb_source eb_sink) in
  (raised (fst (SERIOCore.init port src snk c)) <-> port = p0)
  /\ (port <> p0 ->
      SERIOCore.init port src snk c
      = (inr tt,
         {| SERWBCore.downstream_endpoints := [(p0, eb_source); (port, src)];
            SERWBCore.upstream_endpoints := [(p0, eb_sink); (port, snk)] |})).
Proof.
  cbv zeta.
  change (snd (SERWBCore.init p0 eb_source eb_sink))
    with {| SERWBCore.downstream_endpoints := [(p0, eb_source)];
            SERWBCore.upstream_endpoints := [(p0, eb_sink)] |}.
  unfold SERIOCore.init, SERWBCore.bind, SERWBCore.add_downstream_endpoint,
    SERWBCore.contains.
  cbn [SERWBCore.downstream_endpoints map fst existsb].
  destruct (Z.eqb_spec port p0) as [E|E]; cbn [orb].
  - unfold SERWBCore.raise. cbn [fst].
    split; [|intros H; contradiction].
    split; [intros _; assumption | intros _; eexists; reflexivity].
  - unfold SERWBCore.add_upstream_endpoint, SERWBCore.contains.
    cbn [SERWBCore.upstream_endpoints SERWBCore.downstream_endpoints
         map fst existsb app].
    rewrite (proj2 (Z.eqb_neq port p0) E). cbn [orb fst].
    split; [|reflexivity].
    split; [intros [msg H]; discriminate | intros H; contradiction].
Qed.

(** X14: when the port is free downstream and taken upstream, [SERIOCore]
    raises on its second registration and the downstream dictionary
    keeps the entry the first one added. *)
Theorem serio_registration_not_rolled_back
    (c : SERWBCore.core endpoint) (port : Z) (src snk : endpoint) :
  ~ In port (map fst (SERWBCore.downstream_endpoints c)) ->
  In port (map fst (SERWBCore.upstream_endpoints c)) ->
  raised (fst (SERIOCore.init port src snk c))
  /\ snd (SERIOCore.init port src snk c)
     = {| SERWBCore.downstream_endpoints :=
            SERWBCore.downstream_endpoints c ++ [(port, src)];
          SERWBCore.upstream_endpoints := SERWBCore.upstream_endpoints c |}.
Proof.
  intros Hd Hu. rewrite <- contains_In in Hd, Hu.
  apply not_true_is_false in Hd.
  unfold SERIOCore.init, SERWBCore.bind.
  unfold SERWBCore.add_downstream_endpoint. rewrite Hd.
  unfold SERWBCore.add_upstream_endpoint.
  cbn [SERWBCore.upstream_endpoints SERWBCore.downstream_endpoints].
  rewrite Hu. unfold SERWBCore.raise. cbn [fst snd].
  split; [eexists; reflexivity | reflexivity].
Qed.

End Tables.

(** ** SERIO *)

Lemma sent_held_after (x : Z) (readies : list bool) :
  SERIOPacketizer.sent x (map (pair x) readies) = [].
Proof.
  induction readies as [|rdy readies IH]; [reflexivity|].
  cbn [map SERIOPacketizer.sent SERIOPacketizer.source valid].
  rewrite Z.eqb_refl. cbn [negb andb].
  unfold SERIOPacketizer.next. destruct rdy; exact IH.
Qed.

(** X15: the words the SERIO packetizer gets accepted are the inputs of
    the ready ticks that differ from the input of the ready tick before
    (from the initial [i_d] for the first): a value is never sent twice
    in a row and nothing is sent on a tick without [ready]. *)
Theorem serio_sends_changes (i_d : Z) (ticks : list (Z * bool)) :
  SERIOPacketizer.sent i_d ticks
  = changes i_d (map fst (filter snd ticks)).
Proof.
  revert i_d. induction ticks as [|[i rdy] ticks IH]; intros i_d;
    [reflexivity|].
  cbn [SERIOPacketizer.sent SERIOPacketizer.source valid filter snd].
  unfold SERIOPacketizer.next. destruct rdy; cbn [map fst changes].
  - rewrite andb_true_r, IH. destruct (i =? i_d); reflexivity.
  - rewrite andb_false_r. apply IH.
Qed.

(** X16: while its input is held at [x], the SERIO packetizer gets [x]
    accepted once, on the first ready tick, if [x] differs from [i_d],
    and nothing otherwise. *)
Theorem serio_held_input_sent_once (i_d x : Z) (readies : list bool) :
  SERIOPacketizer.sent i_d (map (pair x) readies)
  = if negb (x =? i_d) && existsb (fun b : bool => b) readies
    then [x] else [].
Proof.
  induction readies as [|rdy readies IH].
  - rewrite andb_false_r. reflexivity.
  - cbn [map SERIOPacketizer.sent SERIOPacketizer.source valid existsb].
    unfold SERIOPacketizer.next. destruct rdy.
    + rewrite sent_held_after. cbn [orb]. rewrite !andb_true_r.
      reflexivity.
    + rewrite andb_false_r. cbn [orb]. exact IH.
Qed.

Lemma last_cons_default (x : Z) (xs : list Z) (d d' : Z) :
  List.last (x :: xs) d = List.last (x :: xs) d'.
Proof.
  revert x. induction xs as [|y xs IH]; intros x; [reflexivity|].
  change (List.last (y :: xs) d = List.last (y :: xs) d'). apply IH.
Qed.

(** X17: the output of the SERIO depacketizer after a run is the data of
    the latest tick that was valid and marked last, and its initial value
    when there was none. *)
Theorem serio_output_is_last_word (ticks : list stream) :
  forall o,
    SERIODepacketizer.run o ticks
    = List.last
        (map (fun s => hd 0 (payload s))
             (filter (fun s => valid s && last s) ticks)) o.
Proof.
  unfold SERIODepacketizer.run.
  induction ticks as [|s ticks IH]; intros o; [reflexivity|].
  cbn [fold_left filter]. rewrite IH. unfold SERIODepacketizer.next.
  destruct (valid s && last s); [|reflexivity].
  cbn [map].
  destruct (map _ (filter _ ticks)) as [|z zs] eqn:E; [reflexivity|].
  change (List.last (hd 0 (payload s) :: z :: zs) o)
    with (List.last (z :: zs) o).
  apply last_cons_default.
Qed.

(** ** Test bench *)

Lemma serdes_period (q : nat) : FakeSerdes.at_tick (5 * q) = 1.
Proof.
  induction q as [|q IH]; [reflexivity|].
  replace (5 * S q)%nat with (5 + 5 * q)%nat by lia.
  unfold FakeSerdes.at_tick in *. rewrite Nat.iter_add, IH. reflexivity.
Qed.

(** X18: the test bench's PHY is ready for a word, and presents one as
    valid, exactly on the ticks whose number since reset is a multiple of
    5, and only while its [init.ready] is high. *)
Theorem fake_phy_ready_every_fifth_tick (t : nat) (init_ready : bool) :
  FakePHY.sink_ready init_ready (FakeSerdes.ce (FakeSerdes.at_tick t))
  = init_ready && (t mod 5 =? 0)%nat
  /\ FakePHY.source_valid init_ready (FakeSerdes.ce (FakeSerdes.at_tick t))
     = init_ready && (t mod 5 =? 0)%nat.
Proof.
  assert (H : FakeSerdes.ce (FakeSerdes.at_tick t) = (t mod 5 =? 0)%nat).
  { rewrite (Nat.div_mod_eq t 5) at 1.
    assert (Hr : (t mod 5 < 5)%nat) by (apply Nat.mod_upper_bound; lia).
    rewrite Nat.add_comm. unfold FakeSerdes.at_tick.
    rewrite Nat.iter_add. fold (FakeSerdes.at_tick (5 * (t / 5))).
    rewrite serdes_period.
    destruct (t mod 5)%nat as [|[|[|[|[|r]]]]]; try reflexivity; lia. }
  unfold FakePHY.sink_ready, FakePHY.source_valid. rewrite H.
  destruct init_ready; split; reflexivity.
Qed.

(** ** Runs of the core *)

Section CoreRuns.

Variable EB EB_inputs : Type.
Variable eb0 : EB.
Variable eb_next : EB -> EB_inputs -> EB.
Variable tx_depth rx_depth : Z.



End CoreRuns.


(** ** Registers stay within their widths *)

Lemma trunc_range (w v : Z) : 0 <= w -> 0 <= Fhdl.trunc w v < 2 ^ w.
Proof.
  intros Hw. unfold Fhdl.trunc. rewrite Z.land_ones by assumption.
  apply Z.mod_pos_bound. apply Z.pow_pos_nonneg; lia.
Qed.

Lemma next_in_range (l : layout) (r : Depacketizer.regs) (v : bool) (d : Z)
    (rdy done : bool) :
  regs_in_range r ->
  regs_in_range (Depacketizer.next l r v d rdy done).
Proof.
  intros Hr. pose proof Hr as (Hp & Hc & Hn).
  pose proof (trunc_range 8 (Fhdl.slice (payload_width l) d 0 8)).
  pose proof (trunc_range 16 0).
  pose proof (trunc_range 16 (Fhdl.slice (payload_width l) d 8 24)).
  pose proof (trunc_range 16 (Depacketizer.r_count r + 1)).
  unfold Depacketizer.next.
  destruct (Depacketizer.state r);
    repeat match goal with
    | |- context [if ?b then _ else _] => destruct b
    end;
    try assumption;
    unfold regs_in_range;
    cbn [Depacketizer.r_port Depacketizer.r_count Depacketizer.r_length];
    lia.
Qed.

(** X9: after any run from reset, whatever the width of the words it was
    fed, the depacketizer's [port] fits 8 bits and its [count] and
    [length] 16 bits, and so do the port and length of every flit it
    delivered. *)
Theorem dp_registers_in_range (l : layout) (inputs : list dp_inputs) :
  regs_in_range (fst (dp_run l Depacketizer.reset_regs inputs))
  /\ Forall (fun f => 0 <= port f < 2 ^ 8 /\ 0 <= length f < 2 ^ 16)
            (snd (dp_run l Depacketizer.reset_regs inputs)).
Proof.
  assert (H0 : regs_in_range Depacketizer.reset_regs)
    by (unfold regs_in_range; simpl; lia).
  revert H0. generalize Depacketizer.reset_regs.
  induction inputs as [|i inputs IH]; intros r Hr.
  - split; [assumption | constructor].
  - rewrite dp_run_cons. cbv zeta. cbn [fst snd].
    destruct (IH _ (next_in_range l r (tick_valid i) (tick_data i)
                      (tick_ready i) (tick_done i) Hr)) as [H1 H2].
    split; [assumption|].
    destruct (valid _ && tick_ready i); [|assumption].
    constructor; [|assumption].
    destruct Hr as (Hp & Hc & Hn).
    unfold Depacketizer.comb. destruct (Depacketizer.state r); simpl; lia.
Qed.

(** ** Framing through the loopback under back-pressure *)

Lemma loopback_header_any (P : packet) (w : Z) (rest : list Z)
    (r1 r2 : bool) (readies : list bool) :
  let h := Packetizer.header 32 (p_port P) (p_length P) in
  loopback (packet_description 32) P PREAMBLE Depacketizer.reset_regs
    (w :: rest) (r1 :: r2 :: readies)
  = loopback (packet_description 32) P DATA
      (in_data (Fhdl.trunc 8 (Fhdl.slice 32 h 0 8)) 0
               (Fhdl.trunc 16 (Fhdl.slice 32 h 8 24)))
      (w :: rest) readies.
Proof. destruct r1, r2; reflexivity. Qed.

Lemma loopback_data_stall (P : packet) (p c n : Z) (rest : list Z)
    (readies : list bool) :
  loopback (packet_description 32) P DATA (in_data p c n) rest
    (false :: readies)
  = loopback (packet_description 32) P DATA (in_data p c n) rest readies.
Proof. destruct rest as [|w [|w' rest]]; reflexivity. Qed.

Lemma loopback_data_stalls (P : packet) (p n : Z) :
  0 <= n < 2 ^ 16 ->
  forall readies rest acc c,
    rest <> [] ->
    0 <= c ->
    c + Z.of_nat (List.length rest) = n / 4 ->
    (List.length rest <= ready_ticks readies)%nat ->
    packets_of acc
      (loopback (packet_description 32) P DATA (in_data p c n) rest readies)
    = [{| p_port := p; p_length := n;
          p_payload := acc ++ repeat 0 (List.length rest) |}].
Proof.
  intros Hn. induction readies as [|rdy readies IH];
    intros rest acc c Hne Hc Hlen Hrdy.
  - destruct rest; [contradiction|].
    unfold ready_ticks in Hrdy. simpl in Hrdy. lia.
  - assert (Hq : n / 4 < 2 ^ 14) by (apply Z.div_lt_upper_bound; lia).
    rewrite ready_ticks_cons in Hrdy. destruct rdy.
    + destruct rest as [|w rest]; [contradiction|].
      rewrite loopback_data_tick. unfold Depacketizer.source_last.
      cbn [in_data Depacketizer.r_count Depacketizer.r_length].
      rewrite length_slice_div4 by assumption.
      cbn [List.length] in Hlen, Hrdy.
      destruct rest as [|w' rest].
      * replace (c =? n / 4 - 1) with true
          by (symmetry; apply Z.eqb_eq; cbn [List.length] in Hlen; lia).
        cbn [packets_of flit last port length payload hd].
        rewrite loopback_idle by reflexivity. reflexivity.
      * replace (c =? n / 4 - 1) with false
          by (symmetry; apply Z.eqb_neq; cbn [List.length] in Hlen; lia).
        cbn [packets_of flit last port length payload hd].
        rewrite trunc_small by (cbn [List.length] in Hlen; lia).
        change ({| Depacketizer.state := DATA; Depacketizer.r_port := p;
                   Depacketizer.r_count := c + 1;
                   Depacketizer.r_length := n |})
          with (in_data p (c + 1) n).
        rewrite IH; [| discriminate | lia | cbn [List.length] in *; lia
                     | cbn [List.length] in *; lia].
        rewrite <- app_assoc. reflexivity.
    + rewrite loopback_data_stall. apply IH; assumption.
Qed.

(** With the timer quiet, the framing of a packet goes through the
    loopback however the consumer's ready ticks are spread. *)
Lemma loopback_framing_quiet_timer (P : packet) (r1 r2 : bool)
    (readies : list bool) :
  0 <= p_port P < 2 ^ 8 ->
  p_payload P <> [] ->
  p_length P = 4 * Z.of_nat (List.length (p_payload P)) ->
  p_length P <= 65535 ->
  (List.length (p_payload P) <= ready_ticks readies)%nat ->
  map (fun Q => (p_port Q, p_length Q, List.length (p_payload Q)))
      (roundtrip (packet_description 32) P (r1 :: r2 :: readies))
  = [(p_port P, p_length P, List.length (p_payload P))].
Proof.
  intros Hp Hne Hlen Hmax Hrdy. unfold roundtrip.
  destruct (p_payload P) as [|w rest] eqn:E; [contradiction|].
  unfold Packetizer.reset_state. rewrite loopback_header_any.
  rewrite header_port_field, header_length_field by lia.
  rewrite !trunc_small by lia.
  rewrite loopback_data_stalls; try lia; try discriminate; try assumption.
  - cbn [map p_port p_length p_payload app]. rewrite repeat_length.
    reflexivity.
  - rewrite Hlen. rewrite Z.mul_comm, Z.div_mul by lia. lia.
Qed.

(** ** Instances of the properties *)

Lemma wire_is_frame_prefix_witness :
  0 < 32
  /\ p_payload scenario_packet <> []
  /\ wire (packet_description 32) scenario_packet Packetizer.reset_state
       (p_payload scenario_packet) [true; false; true; false]
     = firstn (ready_ticks [true; false; true; false])
         (frame (packet_description 32) scenario_packet).
Proof.
  assert (H1 : 0 < 32) by lia.
  assert (H2 : p_payload scenario_packet <> []) by discriminate.
  split; [exact H1|]. split; [exact H2|].
  exact (wire_is_frame_prefix 32 scenario_packet [true; false; true; false]
           H1 H2).
Defined.

Lemma wire_complete_witness :
  31 <= 32
  /\ p_payload scenario_packet <> []
  /\ Forall (fun w => 0 <= w < 2 ^ 32) (p_payload scenario_packet)
  /\ (2 + List.length (p_payload scenario_packet)
      <= ready_ticks [true; false; true; true; false; true])%nat
  /\ wire (packet_description 32) scenario_packet Packetizer.reset_state
       (p_payload scenario_packet) [true; false; true; true; false; true]
     = preamble
       :: Packetizer.header 32 (p_port scenario_packet)
            (p_length scenario_packet)
       :: p_payload scenario_packet.
Proof.
  assert (H1 : 31 <= 32) by lia.
  assert (H2 : p_payload scenario_packet <> []) by discriminate.
  assert (H3 : Forall (fun w => 0 <= w < 2 ^ 32) (p_payload scenario_packet))
    by (repeat constructor; simpl; lia).
  assert (H4 : (2 + List.length (p_payload scenario_packet)
                <= ready_ticks [true; false; true; true; false; true])%nat)
    by (vm_compute; lia).
  split; [exact H1|]. split; [exact H2|]. split; [exact H3|].
  split; [exact H4|].
  exact (wire_complete 32 scenario_packet
           [true; false; true; true; false; true] H1 H2 H3 H4).
Defined.

Lemma header_closed_form_witness :
  24 <= 32 /\ 0 <= 3 < 2 ^ 8 /\ 0 <= 8 < 2 ^ 16
  /\ Packetizer.header 32 3 8 = 3 + 256 * 8
  /\ 0 <= Packetizer.header 32 3 8 < 2 ^ 24.
Proof.
  assert (H1 : 24 <= 32) by lia.
  assert (H2 : 0 <= 3 < 2 ^ 8) by lia.
  assert (H3 : 0 <= 8 < 2 ^ 16) by lia.
  split; [exact H1|]. split; [exact H2|]. split; [exact H3|].
  exact (header_closed_form 32 3 8 H1 H2 H3).
Defined.

Lemma dp_latches_header_witness :
  Depacketizer.state awaiting_header = PORT_LENGTH
  /\ 24 <= payload_width l32
  /\ 0 <= 3 < 2 ^ 8
  /\ 0 <= 8 < 2 ^ 16
  /\ Depacketizer.next l32 awaiting_header true
       (Packetizer.header (payload_width l32) 3 8) false false
     = in_data 3 0 8.
Proof.
  assert (H1 : Depacketizer.state awaiting_header = PORT_LENGTH)
    by reflexivity.
  assert (H2 : 24 <= payload_width l32) by (vm_compute; discriminate).
  assert (H3 : 0 <= 3 < 2 ^ 8) by lia.
  assert (H4 : 0 <= 8 < 2 ^ 16) by lia.
  split; [exact H1|]. split; [exact H2|]. split; [exact H3|].
  split; [exact H4|].
  exact (dp_latches_header l32 awaiting_header 3 8 false false H1 H2 H3 H4).
Defined.

Lemma dp_preamble_skips_witness :
  Depacketizer.state Depacketizer.reset_regs = PREAMBLE
  /\ Forall (fun i => tick_valid i && (tick_data i =? preamble) = false)
       [handshake 7; quiet; handshake 0x5aa55aa4]
  /\ dp_run l32 Depacketizer.reset_regs
       [handshake 7; quiet; handshake 0x5aa55aa4]
     = (Depacketizer.reset_regs, []).
Proof.
  assert (H : Forall (fun i => tick_valid i && (tick_data i =? preamble)
                               = false)
                [handshake 7; quiet; handshake 0x5aa55aa4])
    by (repeat constructor).
  split; [reflexivity|]. split; [exact H|].
  exact (proj1 (dp_preamble_skips l32 _ Depacketizer.reset_regs eq_refl H)).
Defined.

Lemma dp_narrow_never_syncs_witness :
  payload_width (packet_description 2) <= 30
  /\ Forall (fun i => 0 <= tick_data i < 2 ^ payload_width (packet_description 2))
       [handshake 3; handshake 1]
  /\ dp_run (packet_description 2) Depacketizer.reset_regs
       [handshake 3; handshake 1]
     = (Depacketizer.reset_regs, []).
Proof.
  assert (H1 : payload_width (packet_description 2) <= 30)
    by (vm_compute; discriminate).
  assert (H2 : Forall (fun i => 0 <= tick_data i
                                < 2 ^ payload_width (packet_description 2))
                 [handshake 3; handshake 1])
    by (repeat constructor; simpl; lia).
  split; [exact H1|]. split; [exact H2|].
  exact (dp_narrow_never_syncs (packet_description 2) _ H1 H2).
Defined.

Lemma dp_frame_by_length_witness :
  4 <= 8 < 2 ^ 16
  /\ Forall (fun i => tick_done i = false) [quiet; handshake 1; quiet]
  /\ Z.of_nat (handshakes [quiet; handshake 1; quiet]) = 8 / 4 - 1
  /\ Depacketizer.state
       (fst (dp_run l32 (in_data 3 0 8)
               ([quiet; handshake 1; quiet] ++ [handshake 2])))
     = PREAMBLE
  /\ map flit_tag
       (snd (dp_run l32 (in_data 3 0 8)
               ([quiet; handshake 1; quiet] ++ [handshake 2])))
     = repeat (3, 8, false) (handshakes [quiet; handshake 1; quiet])
       ++ [(3, 8, true)].
Proof.
  assert (H1 : 4 <= 8 < 2 ^ 16) by lia.
  assert (H2 : Forall (fun i => tick_done i = false)
                 [quiet; handshake 1; quiet]) by (repeat constructor).
  assert (H3 : Z.of_nat (handshakes [quiet; handshake 1; quiet]) = 8 / 4 - 1)
    by reflexivity.
  split; [exact H1|]. split; [exact H2|]. split; [exact H3|].
  exact (dp_frame_by_length 3 8 2 _ H1 H2 H3).
Defined.

Lemma dp_recovers_after_timeout_witness :
  24 <= payload_width l32
  /\ 0 <= 16 < 2 ^ 16 /\ 0 <= 3 < 2 ^ 8 /\ 0 <= 8 < 2 ^ 16
  /\ tick_done expired = true
  /\ fst (dp_run l32 (in_data 1 2 16)
            [expired; handshake preamble;
             handshake (Packetizer.header (payload_width l32) 3 8)])
     = in_data 3 0 8.
Proof.
  assert (H1 : 24 <= payload_width l32) by (vm_compute; discriminate).
  assert (H2 : 0 <= 16 < 2 ^ 16) by lia.
  assert (H3 : 0 <= 3 < 2 ^ 8) by lia.
  assert (H4 : 0 <= 8 < 2 ^ 16) by lia.
  split; [exact H1|]. split; [exact H2|]. split; [exact H3|].
  split; [exact H4|]. split; [reflexivity|].
  exact (dp_recovers_after_timeout l32 1 2 16 3 8 expired
           (handshake preamble)
           (handshake (Packetizer.header (payload_width l32) 3 8))
           H1 H2 H3 H4 eq_refl eq_refl eq_refl eq_refl eq_refl).
Defined.

Lemma dispatcher_selects_registered_witness :
  NoDup (map fst two_producers)
  /\ nth_error two_producers 1 = Some (5, 1%nat)
  /\ SERWBCore.dispatcher_sel two_producers 5 = 1%nat
  /\ nth_error (SERWBCore.slaves two_producers)
       (SERWBCore.dispatcher_sel two_producers 5) = Some 1%nat.
Proof.
  assert (H1 : NoDup (map fst two_producers)).
  { simpl. constructor.
    - intros [E | []]; discriminate.
    - constructor; [intros [] | constructor]. }
  assert (H2 : nth_error two_producers 1 = Some (5, 1%nat)) by reflexivity.
  split; [exact H1|]. split; [exact H2|].
  exact (dispatcher_selects_registered nat two_producers 1 5 1%nat H1 H2).
Defined.

Lemma serio_registration_not_rolled_back_witness :
  ~ In 5 (map fst (SERWBCore.downstream_endpoints upstream_only))
  /\ In 5 (map fst (SERWBCore.upstream_endpoints upstream_only))
  /\ raised (fst (SERIOCore.init 5 3%nat 4%nat upstream_only))
  /\ snd (SERIOCore.init 5 3%nat 4%nat upstream_only)
     = {| SERWBCore.downstream_endpoints := [(0, 0%nat); (5, 3%nat)];
          SERWBCore.upstream_endpoints := [(0, 1%nat); (5, 2%nat)] |}.
Proof.
  assert (H1 : ~ In 5 (map fst (SERWBCore.downstream_endpoints upstream_only))).
  { simpl. intros [E | []]; discriminate. }
  assert (H2 : In 5 (map fst (SERWBCore.upstream_endpoints upstream_only))).
  { simpl. right. left. reflexivity. }
  split; [exact H1|]. split; [exact H2|].
  exact (serio_registration_not_rolled_back nat upstream_only 5 3%nat 4%nat
           H1 H2).
Defined.


(** ** The port in the header of an arbitrated frame *)

Section HeaderPort.

Variable endpoint : Type.
Variable table : list (Z * endpoint).



(** The payload producers of the completed frames are those of
    [Downstream.frames], which lists the frame under way as well. *)
Lemma emitted_frames_are_frames
    (inputs : list (Downstream.tick_inputs endpoint)) :
  forall arb pk hdr cur,
    exists under_way,
      Downstream.frames table arb pk cur inputs
      = map payload_from (emitted_frames table arb pk hdr cur inputs)
        ++ [under_way].
Proof.
  induction inputs as [|i inputs IH]; intros arb pk hdr cur.
  - exists cur. reflexivity.
  - cbn [Downstream.frames emitted_frames].
    destruct (fsm_state_eqb pk DATA && fsm_state_eqb _ PREAMBLE).
    + match goal with
      | |- context [emitted_frames table ?a ?p ?h [] inputs] =>
          destruct (IH a p h []) as [u Hu]
      end.
      exists u. cbn [map payload_from app]. rewrite Hu. reflexivity.
    + match goal with
      | |- context [emitted_frames table ?a ?p ?h ?c inputs] =>
          destruct (IH a p h c) as [u Hu]
      end.
      exists u. rewrite Hu. reflexivity.
Qed.




End HeaderPort.

(** The second producer of [two_producers], registered under port 5,
    offers a packet that names port 99: the header on the wire is
    0x00000805. *)
Example granted_wire_stamps_port :
  granted_wire two_producers 1 own_port_99 PREAMBLE (p_payload own_port_99)
    [true; false; true; true; true]
  = [0x5AA55AA5; 0x00000805; 0xAAAABBBB; 0xCCCCDDDD].
Proof. reflexivity. Qed.

(** ** Framing through the loopback while the timer is quiet *)

Lemma loopback_timed_quiet (l : layout) (P : packet)
    (ticks : list (bool * bool)) :
  Forall (fun t => snd t = false) ticks ->
  forall pk dp rest,
    loopback_timed l P pk dp rest ticks
    = loopback l P pk dp rest (map fst ticks).
Proof.
  intros Hq. induction Hq as [|[rdy done] ticks Hd _ IH]; intros pk dp rest;
    [reflexivity|].
  cbn [snd] in Hd. subst done.
  cbn [loopback_timed loopback map fst]. rewrite IH. reflexivity.
Qed.

(** X10: on the 32-bit link, for a packet with an 8-bit port, at least
    one word and a length of 4 bytes per word up to 65535, as long as the
    depacketizer's timer is not done on any tick, whenever the consumer
    is ready on at least as many ticks after the first two as the packet
    has words, the depacketizer delivers exactly one packet, with the
    port, the length and the number of words of the original, however the
    ready ticks are spread. *)
Theorem roundtrip_framing_under_backpressure (P : packet) (t1 t2 : bool * bool)
    (ticks : list (bool * bool)) :
  0 <= p_port P < 2 ^ 8 ->
  p_payload P <> [] ->
  p_length P = 4 * Z.of_nat (List.length (p_payload P)) ->
  p_length P <= 65535 ->
  Forall (fun t => snd t = false) (t1 :: t2 :: ticks) ->
  (List.length (p_payload P) <= ready_ticks (map fst ticks))%nat ->
  map (fun Q => (p_port Q, p_length Q, List.length (p_payload Q)))
      (roundtrip_timed (packet_description 32) P (t1 :: t2 :: ticks))
  = [(p_port P, p_length P, List.length (p_payload P))].
Proof.
  intros Hp Hne Hlen Hmax Hq Hrdy. unfold roundtrip_timed.
  rewrite loopback_timed_quiet by assumption. cbn [map].
  apply (loopback_framing_quiet_timer P (fst t1) (fst t2) (map fst ticks));
    assumption.
Qed.

Lemma roundtrip_framing_under_backpressure_witness :
  0 <= p_port scenario_packet < 2 ^ 8
  /\ p_payload scenario_packet <> []
  /\ p_length scenario_packet
     = 4 * Z.of_nat (List.length (p_payload scenario_packet))
  /\ p_length scenario_packet <= 65535
  /\ Forall (fun t => snd t = false)
       ((false, false) :: (true, false)
        :: [(false, false); (true, false); (false, false); (true, false)])
  /\ (List.length (p_payload scenario_packet)
      <= ready_ticks
           (map fst [(false, false); (true, false); (false, false);
                     (true, false)]))%nat
  /\ map (fun Q => (p_port Q, p_length Q, List.length (p_payload Q)))
       (roundtrip_timed (packet_description 32) scenario_packet
          ((false, false) :: (true, false)
           :: [(false, false); (true, false); (false, false); (true, false)]))
     = [(3, 8, 2%nat)].
Proof.
  assert (H1 : 0 <= p_port scenario_packet < 2 ^ 8) by (simpl; lia).
  assert (H2 : p_payload scenario_packet <> []) by discriminate.
  assert (H3 : p_length scenario_packet
               = 4 * Z.of_nat (List.length (p_payload scenario_packet)))
    by reflexivity.
  assert (H4 : p_length scenario_packet <= 65535) by (simpl; lia).
  assert (H5 : Forall (fun t : bool * bool => snd t = false)
                 ((false, false) :: (true, false)
                  :: [(false, false); (true, false); (false, false);
                      (true, false)]))
    by (repeat constructor).
  assert (H6 : (List.length (p_payload scenario_packet)
                <= ready_ticks
                     (map fst [(false, false); (true, false); (false, false);
                               (true, false)]))%nat)
    by (vm_compute; lia).
  split; [exact H1|]. split; [exact H2|]. split; [exact H3|].
  split; [exact H4|]. split; [exact H5|]. split; [exact H6|].
  exact (roundtrip_framing_under_backpressure scenario_packet (false, false)
           (true, false)
           [(false, false); (true, false); (false, false); (true, false)]
           H1 H2 H3 H4 H5 H6).
Defined.

(** When the timer runs out while the consumer stalls, the frame is
    dropped: the depacketizer goes back to [PREAMBLE] and the words that
    follow are discarded. *)
Example stall_past_timeout_drops_frame :
  roundtrip_timed (packet_description 32) scenario_packet
    [(true, false); (true, false); (false, false); (false, true);
     (true, false); (true, false)]
  = [].
Proof. reflexivity. Qed.
